(** * wyron_client/client.py: a shallow embedding and its properties

    The Python module [wyron_client/client.py] holds the domain records
    ([WireGuardInterface], [Server], [PeerState]), the configuration renderer
    [PeerState.generate_config] and the two transport facades [WyronClient]
    (REST over httpx) and [WyronGrpcClient] (gRPC).

    Conventions of the embedding:
    - a Python [str] is a [string], a Python [int] is a [Z];
    - an [Optional[T]] field is an [option T];
    - a call that may raise returns a [result]; code that also mutates the
      client ([self.token]) or talks to the transport is written in a small
      state-and-exception monad over an explicit transport oracle;
    - a value decoded from JSON ([Dict[str, Any]]) is a [pyval]. *)

From Stdlib Require Import String Ascii List ZArith Bool Lia DecimalString.
Import ListNotations.
Open Scope Z_scope.
Open Scope string_scope.

(** ** Exceptions *)

(** gRPC status codes the client looks at ([grpc.StatusCode]). *)
Inductive StatusCode : Type :=
| UNAUTHENTICATED
| DEADLINE_EXCEEDED
| UNAVAILABLE
| NOT_FOUND
| PERMISSION_DENIED
| INTERNAL
| OTHER_STATUS (n : Z).

(** The exceptions that travel through the module.  The first two are the
    classes the module declares itself; [Exception] is the bare
    [Exception(...)] raised by [WyronClient]; the others come from the
    interpreter and from the transport libraries. *)
Inductive exn : Type :=
| InterfaceNotFound (msg : string)
| InterfaceMissingKey (msg : string)
| Exception (msg : string)
| TypeError
| KeyError (key : string)
| AttributeError
| JSONDecodeError
| HTTPStatusError (status_code : Z)
| TransportError (what : string)
| RpcError (code : StatusCode).

(** The class of an exception: what [type(e)] or an [except] clause sees. *)
Inductive exn_class : Type :=
| ClsInterfaceNotFound
| ClsInterfaceMissingKey
| ClsException
| ClsTypeError
| ClsKeyError
| ClsAttributeError
| ClsJSONDecodeError
| ClsHTTPStatusError
| ClsTransportError
| ClsRpcError.

Definition class_of (e : exn) : exn_class :=
  match e with
  | InterfaceNotFound _ => ClsInterfaceNotFound
  | InterfaceMissingKey _ => ClsInterfaceMissingKey
  | Exception _ => ClsException
  | TypeError => ClsTypeError
  | KeyError _ => ClsKeyError
  | AttributeError => ClsAttributeError
  | JSONDecodeError => ClsJSONDecodeError
  | HTTPStatusError _ => ClsHTTPStatusError
  | TransportError _ => ClsTransportError
  | RpcError _ => ClsRpcError
  end.

Definition message_of (e : exn) : option string :=
  match e with
  | InterfaceNotFound m | InterfaceMissingKey m | Exception m => Some m
  | _ => None
  end.

(** The outcome of a call.  [Untyped f] is not a Python event: it marks a
    JSON document whose value for [f] does not fit the annotation of the
    dataclass field it would be stored in.  The records below follow the
    annotations, so such a document is outside the embedding. *)
Inductive result (A : Type) : Type :=
| Ok (a : A)
| Raise (e : exn)
| Untyped (field : string).
Arguments Ok {A} a.
Arguments Raise {A} e.
Arguments Untyped {A} field.

Definition rbind {A B : Type} (r : result A) (k : A -> result B) : result B :=
  match r with
  | Ok a => k a
  | Raise e => Raise e
  | Untyped f => Untyped f
  end.

Declare Scope result_scope.
Delimit Scope result_scope with result.
Notation "x <- c ;; k" := (rbind c (fun x => k))
  (at level 61, c at next level, right associativity) : result_scope.

Fixpoint rmap {A B : Type} (f : A -> result B) (l : list A) : result (list B) :=
  match l with
  | [] => Ok []
  | x :: l' =>
      (y <- f x ;; ys <- rmap f l' ;; Ok (y :: ys))%result
  end.

(** ** Python values and formatting *)

Set Warnings "-register-all".

(** What [json.loads] hands back, floats apart. A dict is kept as its items in
    insertion order; keys are unique. *)
Inductive pyval : Type :=
| PNone
| PBool (b : bool)
| PInt (z : Z)
| PStr (s : string)
| PList (l : list pyval)
| PDict (d : list (string * pyval)).

Definition dict : Type := list (string * pyval).

Fixpoint dict_get (d : dict) (k : string) : option pyval :=
  match d with
  | [] => None
  | (k', v) :: d' => if String.eqb k' k then Some v else dict_get d' k
  end.

(** [d[k] = v]: an existing key keeps its place. *)
Fixpoint dict_set (d : dict) (k : string) (v : pyval) : dict :=
  match d with
  | [] => [(k, v)]
  | (k', v') :: d' =>
      if String.eqb k' k then (k, v) :: d' else (k', v') :: dict_set d' k v
  end.

Definition dict_keys (d : dict) : list string := map fst d.

(** The keys of [d] after [d[k] = ...], whatever the value. *)
Definition keys_set (d : dict) (k : string) : list string :=
  if existsb (String.eqb k) (dict_keys d) then dict_keys d
  else app (dict_keys d) [k].

(** Truth value of a Python object ([if x], [not x]). *)
Definition truthy (v : pyval) : bool :=
  match v with
  | PNone => false
  | PBool b => b
  | PInt z => negb (z =? 0)%Z
  | PStr s => negb (String.eqb s "")
  | PList l => match l with [] => false | _ => true end
  | PDict d => match d with [] => false | _ => true end
  end.

Definition truthy_str (o : option string) : bool :=
  match o with
  | None => false
  | Some s => negb (String.eqb s "")
  end.

(** An [Optional[str]] and an [Optional[int]] as Python values. *)
Definition py_of_opt_str (o : option string) : pyval :=
  match o with
  | None => PNone
  | Some s => PStr s
  end.

Definition py_of_opt_int (o : option Z) : pyval :=
  match o with
  | None => PNone
  | Some z => PInt z
  end.

(** [x is not None] *)
Definition is_some {A : Type} (o : option A) : bool :=
  match o with
  | None => false
  | Some _ => true
  end.

(** [str(n)] for an [int]. *)
Definition str_of_int (z : Z) : string := NilZero.string_of_int (Z.to_int z).

(** [f"{x}"] for an [Optional[str]] and an [Optional[int]]. *)
Definition fmt_str (o : option string) : string :=
  match o with
  | None => "None"
  | Some s => s
  end.

Definition fmt_int (o : option Z) : string :=
  match o with
  | None => "None"
  | Some z => str_of_int z
  end.

(** The line feed of the triple-quoted template. *)
Definition LF : string := String (ascii_of_nat 10) EmptyString.

(** ** Models *)

Module WireGuardInterface.
Record t : Type := mk {
  name : string;
  display_name : option string;
  subnet : option string;
  endpoint : option string;
  dns : option string;
  port : option Z;
  created_at : option Z;
  public_key : option string
}.
End WireGuardInterface.

Module Server.
Record t : Type := mk {
  name : string;
  address : string;
  username : string;
  display_name : option string;
  created_at : option Z;
  interfaces : list WireGuardInterface.t
}.
End Server.

(** [ServerResolver]: the protocol a bound client has to offer.  The function
    is the outcome of the [get_server] call made while rendering. *)
Record ServerResolver : Type := {
  get_server : string -> result Server.t
}.

Module PeerState.
Record t : Type := mk {
  server_id : string;
  interface : string;
  allowed_address : string;
  private_key : option string;
  _client : option ServerResolver
}.

Definition bind_client (self : t) (client : ServerResolver) : t :=
  mk (server_id self) (interface self) (allowed_address self)
     (private_key self) (Some client).

Definition _resolve_server (self : t) : result Server.t :=
  match _client self with
  | None => Raise (InterfaceNotFound "Peer has no client bound")
  | Some client => get_server client (server_id self)
  end.

(** [next((i for i in server.interfaces if i.name == self.interface), None)] *)
Definition first_named (n : string) (l : list WireGuardInterface.t)
  : option WireGuardInterface.t :=
  find (fun i => String.eqb (WireGuardInterface.name i) n) l.

Definition _resolve_iface (self : t) : result WireGuardInterface.t :=
  (server <- _resolve_server self ;;
   match first_named (interface self) (Server.interfaces server) with
   | None =>
       Raise (InterfaceNotFound
                ("Interface '" ++ interface self ++ "' not found on server '"
                 ++ server_id self ++ "'"))
   | Some iface => Ok iface
   end)%result.

(** The f-string of [generate_config]. *)
Definition render (self : t) (iface : WireGuardInterface.t) : string :=
  "[Interface]" ++ LF ++
  "    Address = " ++ allowed_address self ++ LF ++
  "    DNS = " ++ fmt_str (WireGuardInterface.dns iface) ++ LF ++
  "    PrivateKey = " ++ fmt_str (private_key self) ++ LF ++
  LF ++
  "[Peer]" ++ LF ++
  "    AllowedIPs = 0.0.0.0/0" ++ LF ++
  "    Endpoint = " ++ fmt_str (WireGuardInterface.endpoint iface) ++ ":"
                    ++ fmt_int (WireGuardInterface.port iface) ++ LF ++
  "    PublicKey = " ++ fmt_str (WireGuardInterface.public_key iface) ++ LF ++
  "    ".

Definition generate_config (self : t) : result string :=
  if negb (truthy_str (private_key self)) then
    Raise (InterfaceMissingKey "Peer private_key missing")
  else
    (iface <- _resolve_iface self ;;
     if negb (truthy_str (WireGuardInterface.endpoint iface)) then
       Raise (InterfaceMissingKey "Interface endpoint missing")
     else if negb (truthy_str (WireGuardInterface.public_key iface)) then
       Raise (InterfaceMissingKey "Interface public_key missing")
     else Ok (render self iface))%result.
End PeerState.


(** ** A state-and-exception monad for the two clients *)

Definition ST (S A : Type) : Type := S -> result A * S.

Definition ret {S A : Type} (a : A) : ST S A := fun st => (Ok a, st).

Definition raise {S A : Type} (e : exn) : ST S A := fun st => (Raise e, st).

Definition untyped {S A : Type} (f : string) : ST S A :=
  fun st => (Untyped f, st).

Definition bind {S A B : Type} (c : ST S A) (k : A -> ST S B) : ST S B :=
  fun st =>
    match c st with
    | (Ok a, st') => k a st'
    | (Raise e, st') => (Raise e, st')
    | (Untyped f, st') => (Untyped f, st')
    end.

Definition lift {S A : Type} (r : result A) : ST S A := fun st => (r, st).

Declare Scope st_scope.
Delimit Scope st_scope with st.
Notation "x <- c ;; k" := (bind c (fun x => k))
  (at level 61, c at next level, right associativity) : st_scope.
Notation "c ;;; k" := (bind c (fun _ => k))
  (at level 61, right associativity) : st_scope.

(** ** Decoding keyword arguments from JSON *)

Definition mem (k : string) (l : list string) : bool :=
  existsb (String.eqb k) l.

(** [Cls( **kw)] for a dataclass: an unexpected keyword or a missing required
    one is a [TypeError]. *)
Definition bind_kwargs (fields required : list string) (kw : list string)
  : result unit :=
  if forallb (fun k => mem k fields) kw then
    if forallb (fun f => mem f kw) required then Ok tt else Raise TypeError
  else Raise TypeError.

Definition as_str (f : string) (o : option pyval) : result string :=
  match o with
  | Some (PStr s) => Ok s
  | _ => Untyped f
  end.

(** An optional field: left out, it takes the dataclass default [None]. *)
Definition as_opt_str (f : string) (o : option pyval) : result (option string) :=
  match o with
  | None | Some PNone => Ok None
  | Some (PStr s) => Ok (Some s)
  | Some _ => Untyped f
  end.

Definition as_opt_int (f : string) (o : option pyval) : result (option Z) :=
  match o with
  | None | Some PNone => Ok None
  | Some (PInt z) => Ok (Some z)
  | Some _ => Untyped f
  end.

(** [for x in v]: what iterating a decoded JSON value yields. *)
Definition py_iter (v : pyval) : result (list pyval) :=
  match v with
  | PList l => Ok l
  | PDict d => Ok (map (fun kv => PStr (fst kv)) d)
  | PStr s =>
      Ok (map (fun c => PStr (String c EmptyString)) (list_ascii_of_string s))
  | PNone | PBool _ | PInt _ => Raise TypeError
  end.

(** [**v]: the argument has to be a mapping. *)
Definition py_mapping (v : pyval) : result dict :=
  match v with
  | PDict d => Ok d
  | _ => Raise TypeError
  end.

(** [v.get(k)]: only a dict has [get]. *)
Definition py_get (v : pyval) (k : string) : result pyval :=
  match v with
  | PDict d => Ok (match dict_get d k with Some x => x | None => PNone end)
  | _ => Raise AttributeError
  end.

(** [v[k]] with a string key. *)
Definition py_item (v : pyval) (k : string) : result pyval :=
  match v with
  | PDict d =>
      match dict_get d k with
      | Some x => Ok x
      | None => Raise (KeyError k)
      end
  | _ => Raise TypeError
  end.

Definition iface_fields : list string :=
  ["name"; "display_name"; "subnet"; "endpoint"; "dns"; "port"; "created_at";
   "public_key"].

Definition server_fields : list string :=
  ["name"; "address"; "username"; "display_name"; "created_at"; "interfaces"].

(** [WireGuardInterface( **iface)] *)
Definition WireGuardInterface_init (iface : pyval)
  : result WireGuardInterface.t :=
  (kw <- py_mapping iface ;;
   _ <- bind_kwargs iface_fields ["name"] (dict_keys kw) ;;
   name <- as_str "name" (dict_get kw "name") ;;
   display_name <- as_opt_str "display_name" (dict_get kw "display_name") ;;
   subnet <- as_opt_str "subnet" (dict_get kw "subnet") ;;
   endpoint <- as_opt_str "endpoint" (dict_get kw "endpoint") ;;
   dns <- as_opt_str "dns" (dict_get kw "dns") ;;
   port <- as_opt_int "port" (dict_get kw "port") ;;
   created_at <- as_opt_int "created_at" (dict_get kw "created_at") ;;
   public_key <- as_opt_str "public_key" (dict_get kw "public_key") ;;
   Ok (WireGuardInterface.mk name display_name subnet endpoint dns port
         created_at public_key))%result.

(** [Server( **s2)] where [s2] is [s] with ["interfaces"] replaced by the
    records built before: the keywords are those of [s] and ["interfaces"]. *)
Definition Server_init (s : dict) (interfaces : list WireGuardInterface.t)
  : result Server.t :=
  (_ <- bind_kwargs server_fields ["name"; "address"; "username"]
          (keys_set s "interfaces") ;;
   name <- as_str "name" (dict_get s "name") ;;
   address <- as_str "address" (dict_get s "address") ;;
   username <- as_str "username" (dict_get s "username") ;;
   display_name <- as_opt_str "display_name" (dict_get s "display_name") ;;
   created_at <- as_opt_int "created_at" (dict_get s "created_at") ;;
   Ok (Server.mk name address username display_name created_at interfaces))%result.

(** ** Users *)

Module User.
Record t : Type := mk {
  user_key : string;
  sub_token : string;
  social_id : Z;
  active : bool;
  traffic_limit : Z;
  usage : Z;
  duration_seconds : Z;
  created_at : Z;
  first_connected_at : Z;
  last_connected_at : Z;
  created_by : string;
  peers : list PeerState.t
}.
End User.

Definition as_int (f : string) (o : option pyval) : result Z :=
  match o with
  | Some (PInt z) => Ok z
  | _ => Untyped f
  end.

Definition as_bool (f : string) (o : option pyval) : result bool :=
  match o with
  | Some (PBool b) => Ok b
  | _ => Untyped f
  end.

(** The [_client] keyword of [PeerState]: JSON can only leave it out or give
    [null]. *)
Definition as_no_client (f : string) (o : option pyval)
  : result (option ServerResolver) :=
  match o with
  | None | Some PNone => Ok None
  | Some _ => Untyped f
  end.

Definition peer_fields : list string :=
  ["server_id"; "interface"; "allowed_address"; "private_key"; "_client"].

Definition user_required : list string :=
  ["user_key"; "sub_token"; "social_id"; "active"; "traffic_limit"; "usage";
   "duration_seconds"; "created_at"; "first_connected_at";
   "last_connected_at"; "created_by"].

Definition user_fields : list string := app user_required ["peers"].

(** [PeerState( **peer)] *)
Definition PeerState_init (peer : pyval) : result PeerState.t :=
  (kw <- py_mapping peer ;;
   _ <- bind_kwargs peer_fields ["server_id"; "interface"; "allowed_address"]
          (dict_keys kw) ;;
   server_id <- as_str "server_id" (dict_get kw "server_id") ;;
   interface <- as_str "interface" (dict_get kw "interface") ;;
   allowed_address <- as_str "allowed_address" (dict_get kw "allowed_address") ;;
   private_key <- as_opt_str "private_key" (dict_get kw "private_key") ;;
   client <- as_no_client "_client" (dict_get kw "_client") ;;
   Ok (PeerState.mk server_id interface allowed_address private_key client))%result.

(** [User( **u2)] where [u2] is [u] with ["peers"] replaced by the records
    built before. *)
Definition User_init (u : dict) (peers : list PeerState.t) : result User.t :=
  (_ <- bind_kwargs user_fields user_required (keys_set u "peers") ;;
   user_key <- as_str "user_key" (dict_get u "user_key") ;;
   sub_token <- as_str "sub_token" (dict_get u "sub_token") ;;
   social_id <- as_int "social_id" (dict_get u "social_id") ;;
   active <- as_bool "active" (dict_get u "active") ;;
   traffic_limit <- as_int "traffic_limit" (dict_get u "traffic_limit") ;;
   usage <- as_int "usage" (dict_get u "usage") ;;
   duration_seconds <- as_int "duration_seconds"
                         (dict_get u "duration_seconds") ;;
   created_at <- as_int "created_at" (dict_get u "created_at") ;;
   first_connected_at <- as_int "first_connected_at"
                           (dict_get u "first_connected_at") ;;
   last_connected_at <- as_int "last_connected_at"
                          (dict_get u "last_connected_at") ;;
   created_by <- as_str "created_by" (dict_get u "created_by") ;;
   Ok (User.mk user_key sub_token social_id active traffic_limit usage
         duration_seconds created_at first_connected_at last_connected_at
         created_by peers))%result.

(** [for peer in user.peers: peer.bind_client(client)] *)
Definition bind_peers (client : ServerResolver) (user : User.t) : User.t :=
  User.mk (User.user_key user) (User.sub_token user) (User.social_id user)
    (User.active user) (User.traffic_limit user) (User.usage user)
    (User.duration_seconds user) (User.created_at user)
    (User.first_connected_at user) (User.last_connected_at user)
    (User.created_by user)
    (map (fun peer => PeerState.bind_client peer client) (User.peers user)).

(** [v.get(k, default)] *)
Definition py_get_default (v : pyval) (k : string) (default : pyval)
  : result pyval :=
  match v with
  | PDict d => Ok (match dict_get d k with Some x => x | None => default end)
  | _ => Raise AttributeError
  end.

(** A value the code calls [.get] on: anything but a dict has no [get]. *)
Definition py_dict (v : pyval) : result dict :=
  match v with
  | PDict d => Ok d
  | _ => Raise AttributeError
  end.



(** ** The REST client *)

Module WyronClient.

Record t : Type := mk {
  base_url : string;
  username : string;
  password : string;
  token : option string;
  timeout : Z
}.

Definition set_token (self : t) (tok : option string) : t :=
  mk (base_url self) (username self) (password self) tok (timeout self).

(** The keyword arguments handed through to [session.request]. *)
Record kwargs : Type := {
  json : option pyval;
  params : option dict
}.

Definition no_kwargs : kwargs := {| json := None; params := None |}.

Record http_request : Type := {
  req_method : string;
  req_url : string;
  req_headers : list (string * string);
  req_timeout : Z;
  req_kwargs : kwargs
}.

(** An [httpx.Response]: its status and its body as [response.json()] sees
    it ([None] when the body is not JSON). *)
Record Response : Type := {
  status_code : Z;
  content : option pyval
}.

(** What the session does with a request: a response, or an exception of
    the transport (timeout, connection error, ...). *)
Inductive delivery : Type :=
| Delivered (r : Response)
| Failed (e : exn).

(** The calls the client makes on [self.session], in order. *)
Inductive event : Type :=
| SessionRequest (r : http_request)
| SessionPost (r : http_request).

Section Transport.

(** The remote service and the network: an oracle with its own state. *)
Variable World : Type.
Variable send : http_request -> World -> delivery * World.
(** [response.raise_for_status()] raises for these status codes. *)
Variable is_error : Z -> bool.

Record state : Type := {
  self : t;
  world : World;
  trace : list event
}.

Definition M (A : Type) : Type := ST state A.

Definition get_self : M t := fun st => (Ok (self st), st).

Definition put_token (tok : option string) : M unit :=
  fun st =>
    (Ok tt, {| self := set_token (self st) tok;
               world := world st;
               trace := trace st |}).

Definition deliver (ev : http_request -> event) (r : http_request)
  : M Response :=
  fun st =>
    let (d, w) := send r (world st) in
    let st' := {| self := self st; world := w;
                  trace := app (trace st) [ev r] |} in
    match d with
    | Delivered resp => (Ok resp, st')
    | Failed e => (Raise e, st')
    end.

(** [self.session.request(method, url, headers=..., timeout=..., **kwargs)] *)
Definition session_request (method url : string)
  (headers : list (string * string)) (tmo : Z) (kw : kwargs) : M Response :=
  deliver SessionRequest
    {| req_method := method; req_url := url; req_headers := headers;
       req_timeout := tmo; req_kwargs := kw |}.

(** [self.session.post(url, json=..., timeout=...)] *)
Definition session_post (url : string) (body : pyval) (tmo : Z) : M Response :=
  deliver SessionPost
    {| req_method := "POST"; req_url := url; req_headers := [];
       req_timeout := tmo;
       req_kwargs := {| json := Some body; params := None |} |}.

Definition raise_for_status (r : Response) : M unit :=
  if is_error (status_code r) then raise (HTTPStatusError (status_code r))
  else ret tt.

Definition response_json (r : Response) : M pyval :=
  match content r with
  | Some v => ret v
  | None => raise JSONDecodeError
  end.

Definition _headers (self : t) : list (string * string) :=
  let headers := [("Content-Type", "application/json")] in
  if truthy_str (token self) then
    app headers [("Authorization", "Bearer " ++ fmt_str (token self))]
  else headers.

Definition login : M unit :=
  (self <- get_self ;;
   r <- session_post (base_url self ++ "/auth/login")
          (PDict [("username", PStr (username self));
                  ("password", PStr (password self))])
          (timeout self) ;;
   raise_for_status r ;;;
   body <- response_json r ;;
   token <- lift (py_get body "token") ;;
   if negb (truthy token) then
     raise (Exception "Login failed: token missing in response")
   else
     match token with
     | PStr s => put_token (Some s)
     | _ => untyped "token"
     end)%st.

Definition _request (method path : string) (kw : kwargs) : M pyval :=
  (self <- get_self ;;
   let url := base_url self ++ path in
   response <- session_request method url (_headers self) (timeout self) kw ;;
   response <-
     (if (status_code response =? 401)%Z then
        login ;;;
        self <- get_self ;;
        session_request method url (_headers self) (timeout self) kw
      else ret response) ;;
   raise_for_status response ;;;
   response_json response)%st.

(** [_parse_server]: a static method, no transport involved. *)
Definition _parse_server (s : dict) : result Server.t :=
  (items <- py_iter (match dict_get s "interfaces" with
                     | Some v => v
                     | None => PList []
                     end) ;;
   interfaces <- rmap WireGuardInterface_init items ;;
   Server_init s interfaces)%result.

Definition get_server (server_id : string) : M Server.t :=
  (data <- _request "GET" ("/servers/" ++ server_id) no_kwargs ;;
   s <- lift (py_item data "data") ;;
   d <- lift (match s with
              | PDict d => Ok d
              | _ => Raise AttributeError
              end) ;;
   lift (_parse_server d))%st.

(** The query parameters [list_users] builds (the [params] dict). *)
Definition list_users_params (social_id : option Z)
  (status search : option string) (limit skip : Z) (sort order : string)
  : dict :=
  let params := [("limit", PInt limit); ("skip", PInt skip);
                 ("sort", PStr sort); ("order", PStr order)] in
  let params := if is_some social_id
                then dict_set params "social_id" (py_of_opt_int social_id)
                else params in
  let params := if truthy_str status
                then dict_set params "status" (py_of_opt_str status)
                else params in
  let params := if truthy_str search
                then dict_set params "search" (py_of_opt_str search)
                else params in
  params.

(** [list_users] up to the reply of the service: the request it sends.  The
    users of the reply are then parsed and bound to the client. *)
Definition list_users_data (social_id : option Z)
  (status search : option string) (limit skip : Z) (sort order : string)
  : M pyval :=
  _request "GET" "/users"
    {| json := None;
       params := Some (list_users_params social_id status search limit skip
                         sort order) |}.


(** [_parse_user]: a static method, no transport involved. *)
Definition _parse_user (u : dict) : result User.t :=
  (items <- py_iter (match dict_get u "peers" with
                     | Some v => v
                     | None => PList []
                     end) ;;
   peers <- rmap PeerState_init items ;;
   User_init u peers)%result.

(** [self._parse_server(s)] for an item of a reply. *)
Definition parse_server_item (s : pyval) : result Server.t :=
  (d <- py_dict s ;; _parse_server d)%result.

Definition list_servers : M (list Server.t) :=
  (data <- _request "GET" "/servers" no_kwargs ;;
   found <- lift (py_get_default data "data" (PList [])) ;;
   items <- lift (py_iter found) ;;
   lift (rmap parse_server_item items))%st.

Definition create_or_update_server_raw (payload : dict) : M pyval :=
  _request "POST" "/servers" {| json := Some (PDict payload); params := None |}.

Definition create_or_update_server (payload : dict) : M Server.t :=
  (res <- create_or_update_server_raw payload ;;
   name <- lift (py_get res "name") ;;
   if negb (truthy name) then
     raise (Exception "server create/update succeeded but 'name' missing")
   else
     match name with
     | PStr n => get_server n
     | _ => untyped "name"
     end)%st.

(** The client itself, as the resolver its peers get bound to. *)
Variable me : ServerResolver.

(** [self._parse_user(u)] for an item of a reply, its peers bound. *)
Definition parse_bound_user (u : pyval) : result User.t :=
  (d <- py_dict u ;;
   user <- _parse_user d ;;
   Ok (bind_peers me user))%result.

Definition list_users (social_id : option Z) (status search : option string)
  (limit skip : Z) (sort order : string) : M (list User.t) :=
  (data <- list_users_data social_id status search limit skip sort order ;;
   found <- lift (py_get_default data "result" (PList [])) ;;
   items <- lift (py_iter found) ;;
   lift (rmap parse_bound_user items))%st.

Definition get_user (user_id : string) : M User.t :=
  (data <- _request "GET" ("/users/" ++ user_id) no_kwargs ;;
   found <- lift (py_item data "result") ;;
   lift (parse_bound_user found))%st.

Definition create_user (payload : dict) : M User.t :=
  (data <- _request "POST" "/users"
             {| json := Some (PDict payload); params := None |} ;;
   found <- lift (py_item data "result") ;;
   lift (parse_bound_user found))%st.

Definition edit_user (user_id : string) (payload : dict) : M User.t :=
  (data <- _request "PATCH" ("/users/" ++ user_id)
             {| json := Some (PDict payload); params := None |} ;;
   found <- lift (py_item data "result") ;;
   lift (parse_bound_user found))%st.

End Transport.

Arguments self {World} s.
Arguments world {World} s.
Arguments trace {World} s.

End WyronClient.

(** ** The gRPC client *)

(** Modelled from the spec: the generated module [wyron_proto.auth_pb2] is
    not part of the sources.  Its messages carry the fields the client
    assigns and reads; a scalar field of a protobuf message always reads as a
    value of its type, the default of the type when it was never set. *)
Module auth_pb2.
Record LoginRequest : Type := {
  username : string;
  password : string
}.
Record LoginResponse : Type := {
  token : string
}.
End auth_pb2.

(** Modelled from the spec: the generated module [wyron_proto.server_pb2] is
    not part of the sources.  The two reply messages carry the fields
    [WyronGrpcClient._parse_server] reads, as protobuf scalars (a string or an
    integer, never [None]) and a repeated field. *)
Module server_pb2.
Module Interface.
Record t : Type := mk {
  name : string;
  display_name : string;
  subnet : string;
  endpoint : string;
  dns : string;
  port : Z;
  created_at : Z;
  public_key : string
}.
End Interface.
Module Server.
Record t : Type := mk {
  id : string;
  address : string;
  username : string;
  display_name : string;
  created_at : Z;
  interfaces : list Interface.t
}.
End Server.
Record ServerIDRequest : Type := {
  id : string
}.
Record ServerList : Type := {
  servers : list Server.t
}.
End server_pb2.

(** Modelled from the spec: [user_pb2.ListUsersRequest] is generated code
    that is not part of the sources.  The request is kept as the fields the
    client assigns to it, in the order of the assignments. *)
Module user_pb2.
Definition ListUsersRequest : Type := dict.
Module Peer.
Record t : Type := mk {
  server_id : string;
  interface : string;
  allowed_address : string;
  private_key : string
}.
End Peer.
Module User.
Record t : Type := mk {
  user_key : string;
  sub_token : string;
  social_id : Z;
  active : bool;
  traffic_limit : Z;
  usage : Z;
  duration_seconds : Z;
  created_at : Z;
  first_connected_at : Z;
  last_connected_at : Z;
  created_by : string;
  peers : list Peer.t
}.
End User.
Record UserKeyRequest : Type := {
  user_key : string
}.
End user_pb2.

Module WyronGrpcClient.

Record t : Type := mk {
  host : string;
  username : string;
  password : string;
  timeout : Z;
  token : option string
}.

Definition set_token (self : t) (tok : option string) : t :=
  mk (host self) (username self) (password self) (timeout self) tok.

Definition metadata : Type := list (string * string).

(** The calls the client makes on its stubs, in order. *)
Inductive event : Type :=
| Invoked (md : option metadata) (tmo : Z)
| InvokedLogin (tmo : Z).

Section Channel.

(** The remote service and the channel: an oracle with its own state. *)
Variable World : Type.

(** A method of a stub: [func(request, metadata=..., timeout=...)]. *)
Definition stub (Req Resp : Type) : Type :=
  Req -> option metadata -> Z -> World -> result Resp * World.

(** [self.auth.Login], [self.server.Get] and [self.user.List]. *)
Variable auth_Login : stub auth_pb2.LoginRequest auth_pb2.LoginResponse.
Variable server_Get : stub server_pb2.ServerIDRequest server_pb2.Server.t.
(** The reply of [self.user.List] is left abstract. *)
Variable ListUsersResponse : Type.
Variable user_List : stub user_pb2.ListUsersRequest ListUsersResponse.

Record state : Type := {
  self : t;
  world : World;
  trace : list event
}.

Definition M (A : Type) : Type := ST state A.

Definition get_self : M t := fun st => (Ok (self st), st).

Definition put_token (tok : option string) : M unit :=
  fun st =>
    (Ok tt, {| self := set_token (self st) tok;
               world := world st;
               trace := trace st |}).

Definition invoke {Req Resp : Type} (ev : event) (func : stub Req Resp)
  (request : Req) (md : option metadata) (tmo : Z) : M Resp :=
  fun st =>
    let (r, w) := func request md tmo (world st) in
    (r, {| self := self st; world := w; trace := app (trace st) [ev] |}).

(** [try: c except grpc.RpcError as e: h e] *)
Definition try_except_RpcError {A : Type} (c : M A)
  (h : StatusCode -> M A) : M A :=
  fun st =>
    match c st with
    | (Raise (RpcError code), st') => h code st'
    | other => other
    end.

Definition is_unauthenticated (code : StatusCode) : bool :=
  match code with
  | UNAUTHENTICATED => true
  | _ => false
  end.

Definition _metadata (self : t) : metadata :=
  if negb (truthy_str (token self)) then []
  else [("authorization", "Bearer " ++ fmt_str (token self))].

Definition login : M unit :=
  (self <- get_self ;;
   response <- invoke (InvokedLogin (timeout self)) auth_Login
                 {| auth_pb2.username := username self;
                    auth_pb2.password := password self |}
                 None (timeout self) ;;
   put_token (Some (auth_pb2.token response)))%st.

Definition _call {Req Resp : Type} (func : stub Req Resp) (request : Req)
  : M Resp :=
  (self <- get_self ;;
   try_except_RpcError
     (invoke (Invoked (Some (_metadata self)) (timeout self)) func request
        (Some (_metadata self)) (timeout self))
     (fun code =>
        if is_unauthenticated code then
          login ;;;
          self <- get_self ;;
          invoke (Invoked (Some (_metadata self)) (timeout self)) func request
            (Some (_metadata self)) (timeout self)
        else raise (RpcError code)))%st.

(** The [WireGuardInterface(name=i.name, ...)] of the comprehension. *)
Definition _parse_interface (i : server_pb2.Interface.t)
  : WireGuardInterface.t :=
  WireGuardInterface.mk
    (server_pb2.Interface.name i)
    (Some (server_pb2.Interface.display_name i))
    (Some (server_pb2.Interface.subnet i))
    (Some (server_pb2.Interface.endpoint i))
    (Some (server_pb2.Interface.dns i))
    (Some (server_pb2.Interface.port i))
    (Some (server_pb2.Interface.created_at i))
    (Some (server_pb2.Interface.public_key i)).

(** [_parse_server]: a static method, no channel involved. *)
Definition _parse_server (s : server_pb2.Server.t) : Server.t :=
  let interfaces := map _parse_interface (server_pb2.Server.interfaces s) in
  Server.mk
    (server_pb2.Server.id s)
    (server_pb2.Server.address s)
    (server_pb2.Server.username s)
    (Some (server_pb2.Server.display_name s))
    (Some (server_pb2.Server.created_at s))
    interfaces.

Definition get_server (server_id : string) : M Server.t :=
  (response <- _call server_Get {| server_pb2.id := server_id |} ;;
   ret (_parse_server response))%st.

(** The request message [list_users] builds. *)
Definition list_users_request (social_id : option Z)
  (status search : option string) (limit skip : Z) (sort order : string)
  : user_pb2.ListUsersRequest :=
  let request := [("limit", PInt limit); ("skip", PInt skip);
                  ("sort", PStr sort); ("order", PStr order)] in
  let request := if is_some social_id
                 then dict_set request "social_id" (py_of_opt_int social_id)
                 else request in
  let request := if truthy_str status
                 then dict_set request "status" (py_of_opt_str status)
                 else request in
  let request := if truthy_str search
                 then dict_set request "search" (py_of_opt_str search)
                 else request in
  request.

(** [list_users] up to the reply of the service: the call it makes.  The
    users of the reply are then parsed and bound to the client. *)
Definition list_users_response (social_id : option Z)
  (status search : option string) (limit skip : Z) (sort order : string)
  : M ListUsersResponse :=
  _call user_List
    (list_users_request social_id status search limit skip sort order).

(** [self.server.List], [self.user.Get], and the repeated field [users] of
    the reply of [self.user.List]. *)
Variable server_List : stub unit server_pb2.ServerList.
Variable user_Get : stub user_pb2.UserKeyRequest user_pb2.User.t.
Variable response_users : ListUsersResponse -> list user_pb2.User.t.

(** The client itself, as the resolver its peers get bound to. *)
Variable me : ServerResolver.

Definition list_servers : M (list Server.t) :=
  (response <- _call server_List tt ;;
   ret (map _parse_server (server_pb2.servers response)))%st.

(** The [PeerState(server_id=p.server_id, ...)] of the comprehension. *)
Definition _parse_peer (p : user_pb2.Peer.t) : PeerState.t :=
  PeerState.mk
    (user_pb2.Peer.server_id p)
    (user_pb2.Peer.interface p)
    (user_pb2.Peer.allowed_address p)
    (Some (user_pb2.Peer.private_key p))
    None.

(** [_parse_user]: a static method, no channel involved. *)
Definition _parse_user (u : user_pb2.User.t) : User.t :=
  let peers := map _parse_peer (user_pb2.User.peers u) in
  User.mk
    (user_pb2.User.user_key u)
    (user_pb2.User.sub_token u)
    (user_pb2.User.social_id u)
    (user_pb2.User.active u)
    (user_pb2.User.traffic_limit u)
    (user_pb2.User.usage u)
    (user_pb2.User.duration_seconds u)
    (user_pb2.User.created_at u)
    (user_pb2.User.first_connected_at u)
    (user_pb2.User.last_connected_at u)
    (user_pb2.User.created_by u)
    peers.

Definition list_users (social_id : option Z) (status search : option string)
  (limit skip : Z) (sort order : string) : M (list User.t) :=
  (response <- list_users_response social_id status search limit skip sort
                 order ;;
   ret (map (fun u => bind_peers me (_parse_user u))
          (response_users response)))%st.

Definition get_user (user_id : string) : M User.t :=
  (response <- _call user_Get {| user_pb2.user_key := user_id |} ;;
   ret (bind_peers me (_parse_user response)))%st.

End Channel.

Arguments self {World} s.
Arguments world {World} s.
Arguments trace {World} s.

End WyronGrpcClient.

(** ** Vocabulary of the statements *)

(** An optional string that is absent or empty: what [not x] accepts. *)
Definition empty_or_absent (o : option string) : Prop :=
  o = None \/ o = Some "".

(** An optional string that is present and not empty. *)
Definition present (o : option string) : Prop :=
  exists s, o = Some s /\ s <> "".

(** The peer is bound to a resolver that returns [s] for the peer's server. *)
Definition resolves_to (p : PeerState.t) (s : Server.t) : Prop :=
  exists c, PeerState._client p = Some c /\
            get_server c (PeerState.server_id p) = Ok s.

(** No interface of [s] carries the name [n]. *)
Definition no_interface_named (n : string) (s : Server.t) : Prop :=
  forall i, In i (Server.interfaces s) -> WireGuardInterface.name i <> n.

(** [i] is the first interface of [s] that carries the name [n]. *)
Definition matched_interface (n : string) (s : Server.t)
  (i : WireGuardInterface.t) : Prop :=
  exists before after,
    Server.interfaces s = (before ++ i :: after)%list /\
    WireGuardInterface.name i = n /\
    forall j, In j before -> WireGuardInterface.name j <> n.

(** The three local preconditions of rendering the spec lists as error kinds
    of their own, each one read as failing first. *)
Inductive precondition : Type :=
| HasPrivateKey
| IsBound
| HasInterface.

Definition violates (p : PeerState.t) (c : precondition) : Prop :=
  match c with
  | HasPrivateKey => empty_or_absent (PeerState.private_key p)
  | IsBound =>
      present (PeerState.private_key p) /\ PeerState._client p = None
  | HasInterface =>
      present (PeerState.private_key p) /\
      exists s, resolves_to p s /\
                no_interface_named (PeerState.interface p) s
  end.

(** The class [generate_config] raises for each of them. *)
Definition kind_raised (c : precondition) : exn_class :=
  match c with
  | HasPrivateKey => ClsInterfaceMissingKey
  | IsBound => ClsInterfaceNotFound
  | HasInterface => ClsInterfaceNotFound
  end.

(** ** Sample data *)

Definition wg0 : WireGuardInterface.t :=
  WireGuardInterface.mk "wg0" None None (Some "vpn.example.com")
    (Some "1.1.1.1") (Some 51820) None (Some "PUB").

Definition srv1 : Server.t :=
  Server.mk "srv1" "203.0.113.7" "admin" None None [wg0].

Definition srv1_resolver : ServerResolver :=
  {| get_server := fun _ => Ok srv1 |}.

Definition sample_peer : PeerState.t :=
  PeerState.mk "srv1" "wg0" "10.0.0.2/32" (Some "PK") (Some srv1_resolver).

Definition sample_profile : string :=
"[Interface]
    Address = 10.0.0.2/32
    DNS = 1.1.1.1
    PrivateKey = PK

[Peer]
    AllowedIPs = 0.0.0.0/0
    Endpoint = vpn.example.com:51820
    PublicKey = PUB
    ".

(** The same peer without a key, without a resolver, and asking for an
    interface the server does not have. *)
Definition keyless_peer : PeerState.t :=
  PeerState.mk "srv1" "wg0" "10.0.0.2/32" None None.

Definition unbound_peer : PeerState.t :=
  PeerState.mk "srv1" "wg0" "10.0.0.2/32" (Some "PK") None.

Definition stray_peer : PeerState.t :=
  PeerState.mk "srv1" "wg9" "10.0.0.2/32" (Some "PK") (Some srv1_resolver).

(** A server whose only interface lacks an endpoint, one lacking a public
    key, and one without a port. *)
Definition server_of (i : WireGuardInterface.t) : Server.t :=
  Server.mk "srv1" "203.0.113.7" "admin" None None [i].

Definition resolver_of (i : WireGuardInterface.t) : ServerResolver :=
  {| get_server := fun _ => Ok (server_of i) |}.

Definition wg0_no_endpoint : WireGuardInterface.t :=
  WireGuardInterface.mk "wg0" None None None (Some "1.1.1.1") (Some 51820)
    None (Some "PUB").

Definition wg0_no_public_key : WireGuardInterface.t :=
  WireGuardInterface.mk "wg0" None None (Some "vpn.example.com")
    (Some "1.1.1.1") (Some 51820) None (Some "").

Definition wg0_no_port : WireGuardInterface.t :=
  WireGuardInterface.mk "wg0" None None (Some "vpn.example.com")
    (Some "1.1.1.1") None None (Some "PUB").

Definition peer_on (i : WireGuardInterface.t) : PeerState.t :=
  PeerState.mk "srv1" "wg0" "10.0.0.2/32" (Some "PK") (Some (resolver_of i)).

(** ** Server representations *)

(** The keys of a JSON object are among the fields of the dataclass. *)
Definition known_keys (fields : list string) (d : dict) : Prop :=
  forall k, In k (dict_keys d) -> In k fields.

(** An optional entry that the JSON object leaves out or gives as [null]. *)
Definition left_out (d : dict) (k : string) : Prop :=
  dict_get d k = None \/ dict_get d k = Some PNone.

(** The JSON object gives the string [v] (the integer [z]) under [k].  When
    [lax] is set, an entry that is left out stands for the protobuf default
    of the field, the empty string (zero). *)
Definition str_field (lax : bool) (d : dict) (k v : string) : Prop :=
  dict_get d k = Some (PStr v) \/
  (lax = true /\ v = "" /\ left_out d k).

Definition int_field (lax : bool) (d : dict) (k : string) (z : Z) : Prop :=
  dict_get d k = Some (PInt z) \/
  (lax = true /\ z = 0 /\ left_out d k).

(** A JSON value and a protobuf message that describe the same interface. *)
Definition represents_interface (lax : bool) (j : pyval)
  (i : server_pb2.Interface.t) : Prop :=
  exists kw,
    j = PDict kw /\
    known_keys iface_fields kw /\
    dict_get kw "name" = Some (PStr (server_pb2.Interface.name i)) /\
    str_field lax kw "display_name" (server_pb2.Interface.display_name i) /\
    str_field lax kw "subnet" (server_pb2.Interface.subnet i) /\
    str_field lax kw "endpoint" (server_pb2.Interface.endpoint i) /\
    str_field lax kw "dns" (server_pb2.Interface.dns i) /\
    int_field lax kw "port" (server_pb2.Interface.port i) /\
    int_field lax kw "created_at" (server_pb2.Interface.created_at i) /\
    str_field lax kw "public_key" (server_pb2.Interface.public_key i).

(** A JSON object and a protobuf message that describe the same server: the
    JSON key ["name"] is the message field [id], and the interfaces come in
    the same order (an empty list may be left out of the JSON object). *)
Definition represents_server (lax : bool) (d : dict)
  (m : server_pb2.Server.t) : Prop :=
  known_keys server_fields d /\
  dict_get d "name" = Some (PStr (server_pb2.Server.id m)) /\
  dict_get d "address" = Some (PStr (server_pb2.Server.address m)) /\
  dict_get d "username" = Some (PStr (server_pb2.Server.username m)) /\
  str_field lax d "display_name" (server_pb2.Server.display_name m) /\
  int_field lax d "created_at" (server_pb2.Server.created_at m) /\
  exists js,
    (dict_get d "interfaces" = Some (PList js) \/
     (js = [] /\ dict_get d "interfaces" = None)) /\
    Forall2 (represents_interface lax) js (server_pb2.Server.interfaces m).

(** A record with every [None] replaced by the protobuf default. *)
Definition or_empty (o : option string) : option string :=
  Some (match o with Some s => s | None => "" end).

Definition or_zero (o : option Z) : option Z :=
  Some (match o with Some z => z | None => 0 end).

Definition interface_with_defaults (i : WireGuardInterface.t)
  : WireGuardInterface.t :=
  WireGuardInterface.mk
    (WireGuardInterface.name i)
    (or_empty (WireGuardInterface.display_name i))
    (or_empty (WireGuardInterface.subnet i))
    (or_empty (WireGuardInterface.endpoint i))
    (or_empty (WireGuardInterface.dns i))
    (or_zero (WireGuardInterface.port i))
    (or_zero (WireGuardInterface.created_at i))
    (or_empty (WireGuardInterface.public_key i)).

Definition server_with_defaults (s : Server.t) : Server.t :=
  Server.mk
    (Server.name s) (Server.address s) (Server.username s)
    (or_empty (Server.display_name s))
    (or_zero (Server.created_at s))
    (map interface_with_defaults (Server.interfaces s)).

(** The JSON object gives the optional value [o] under [k]. *)
Definition opt_str_entry (d : dict) (k : string) (o : option string) : Prop :=
  match o with
  | None => left_out d k
  | Some v => dict_get d k = Some (PStr v)
  end.

Definition opt_int_entry (d : dict) (k : string) (o : option Z) : Prop :=
  match o with
  | None => left_out d k
  | Some z => dict_get d k = Some (PInt z)
  end.

(** The header of a JSON server: everything but its interfaces. *)
Definition server_header (d : dict) (n a u : string) (dn : option string)
  (ca : option Z) : Prop :=
  known_keys server_fields d /\
  dict_get d "name" = Some (PStr n) /\
  dict_get d "address" = Some (PStr a) /\
  dict_get d "username" = Some (PStr u) /\
  opt_str_entry d "display_name" dn /\
  opt_int_entry d "created_at" ca.

(** ** Sample server representations *)

(** A server without a display name, as JSON and as a message. *)
Definition bare_json : dict :=
  [("name", PStr "srv1"); ("address", PStr "203.0.113.7");
   ("username", PStr "admin")].

Definition bare_message : server_pb2.Server.t :=
  server_pb2.Server.mk "srv1" "203.0.113.7" "admin" "" 0 [].

Definition wg0_json : pyval :=
  PDict [("name", PStr "wg0"); ("display_name", PStr "office");
         ("subnet", PStr "10.0.0.0/24"); ("endpoint", PStr "vpn.example.com");
         ("dns", PStr "1.1.1.1"); ("port", PInt 51820);
         ("created_at", PInt 1700000000); ("public_key", PStr "PUB")].

Definition wg1_json : pyval :=
  PDict [("name", PStr "wg1"); ("port", PInt 51821)].

Definition wg0_message : server_pb2.Interface.t :=
  server_pb2.Interface.mk "wg0" "office" "10.0.0.0/24" "vpn.example.com"
    "1.1.1.1" 51820 1700000000 "PUB".

Definition full_json : dict :=
  [("name", PStr "srv1"); ("address", PStr "203.0.113.7");
   ("username", PStr "admin"); ("display_name", PStr "Main");
   ("created_at", PInt 1700000000); ("interfaces", PList [wg0_json])].

Definition full_message : server_pb2.Server.t :=
  server_pb2.Server.mk "srv1" "203.0.113.7" "admin" "Main" 1700000000
    [wg0_message].

Definition two_interfaces_json : dict :=
  [("name", PStr "srv1"); ("address", PStr "203.0.113.7");
   ("username", PStr "admin"); ("interfaces", PList [wg0_json; wg1_json])].

(** ** Observing the REST client *)

(** The request [_request] sends for a client in a given state. *)
Definition request_of (self : WyronClient.t) (method path : string)
  (kw : WyronClient.kwargs) : WyronClient.http_request :=
  {| WyronClient.req_method := method;
     WyronClient.req_url := WyronClient.base_url self ++ path;
     WyronClient.req_headers := WyronClient._headers self;
     WyronClient.req_timeout := WyronClient.timeout self;
     WyronClient.req_kwargs := kw |}.

(** The request [login] posts. *)
Definition login_request (self : WyronClient.t) : WyronClient.http_request :=
  {| WyronClient.req_method := "POST";
     WyronClient.req_url := WyronClient.base_url self ++ "/auth/login";
     WyronClient.req_headers := [];
     WyronClient.req_timeout := WyronClient.timeout self;
     WyronClient.req_kwargs :=
       {| WyronClient.json :=
            Some (PDict [("username", PStr (WyronClient.username self));
                         ("password", PStr (WyronClient.password self))]);
          WyronClient.params := None |} |}.

(** The state of the client once the session has answered: the answer moved
    the service to [w] and the call is on record. *)
Definition sent {World : Type} (st : WyronClient.state World)
  (ev : WyronClient.event) (w : World) : WyronClient.state World :=
  {| WyronClient.self := WyronClient.self st;
     WyronClient.world := w;
     WyronClient.trace := app (WyronClient.trace st) [ev] |}.

(** What [_request] makes of the response it ends up with. *)
Definition outcome_of (is_error : Z -> bool) (r : WyronClient.Response)
  : result pyval :=
  if is_error (WyronClient.status_code r)
  then Raise (HTTPStatusError (WyronClient.status_code r))
  else match WyronClient.content r with
       | Some v => Ok v
       | None => Raise JSONDecodeError
       end.

(** How many times the call itself, and [login], went to the session. *)
Definition requests_sent (t : list WyronClient.event) : nat :=
  length (filter (fun e => match e with
                           | WyronClient.SessionRequest _ => true
                           | WyronClient.SessionPost _ => false
                           end) t).

Definition logins_sent (t : list WyronClient.event) : nat :=
  length (filter (fun e => match e with
                           | WyronClient.SessionRequest _ => false
                           | WyronClient.SessionPost _ => true
                           end) t).

(** A scripted service: it answers the requests with the deliveries of the
    script, in order, and times out when the script is used up. *)
Definition scripted (r : WyronClient.http_request)
  (w : list WyronClient.delivery)
  : WyronClient.delivery * list WyronClient.delivery :=
  match w with
  | [] => (WyronClient.Failed (TransportError "timeout"), [])
  | d :: w' => (d, w')
  end.

(** [raise_for_status] raising for the 4xx and 5xx status codes. *)
Definition is_error_4xx_5xx (status : Z) : bool := (400 <=? status)%Z.

Definition answer (status : Z) (body : pyval) : WyronClient.delivery :=
  WyronClient.Delivered
    {| WyronClient.status_code := status; WyronClient.content := Some body |}.

Definition admin_client (tok : option string) : WyronClient.t :=
  WyronClient.mk "https://vpn.example.com/api" "admin" "secret" tok 15.

Definition rest_state (tok : option string) (script : list WyronClient.delivery)
  : WyronClient.state (list WyronClient.delivery) :=
  {| WyronClient.self := admin_client tok;
     WyronClient.world := script;
     WyronClient.trace := [] |}.

(** ** Observing the gRPC client *)

Definition invocations (t : list WyronGrpcClient.event) : nat :=
  length (filter (fun e => match e with
                           | WyronGrpcClient.Invoked _ _ => true
                           | WyronGrpcClient.InvokedLogin _ => false
                           end) t).

Definition login_invocations (t : list WyronGrpcClient.event) : nat :=
  length (filter (fun e => match e with
                           | WyronGrpcClient.Invoked _ _ => false
                           | WyronGrpcClient.InvokedLogin _ => true
                           end) t).

(** A scripted channel: every method of every stub takes its outcome from
    the script, in order; a used-up script means the deadline passed. *)
Definition scripted_stub {Req Resp : Type} (decode : pyval -> Resp)
  : WyronGrpcClient.stub (list (result pyval)) Req Resp :=
  fun _ _ _ w =>
    match w with
    | [] => (Raise (RpcError DEADLINE_EXCEEDED), [])
    | Ok v :: w' => (Ok (decode v), w')
    | Raise e :: w' => (Raise e, w')
    | Untyped f :: w' => (Untyped f, w')
    end.

Definition login_reply (v : pyval) : auth_pb2.LoginResponse :=
  {| auth_pb2.token := match v with PStr s => s | _ => "" end |}.

Definition scripted_Login
  : WyronGrpcClient.stub (list (result pyval)) auth_pb2.LoginRequest
      auth_pb2.LoginResponse :=
  scripted_stub login_reply.

Definition scripted_method
  : WyronGrpcClient.stub (list (result pyval)) pyval pyval :=
  scripted_stub (fun v => v).

Definition grpc_client (tok : option string) : WyronGrpcClient.t :=
  WyronGrpcClient.mk "vpn.example.com:50051" "admin" "secret" 15 tok.

Definition grpc_state (tok : option string) (script : list (result pyval))
  : WyronGrpcClient.state (list (result pyval)) :=
  {| WyronGrpcClient.self := grpc_client tok;
     WyronGrpcClient.world := script;
     WyronGrpcClient.trace := [] |}.

(** The state of the gRPC client once a stub has answered. *)
Definition invoked {World : Type} (st : WyronGrpcClient.state World)
  (ev : WyronGrpcClient.event) (w : World) : WyronGrpcClient.state World :=
  {| WyronGrpcClient.self := WyronGrpcClient.self st;
     WyronGrpcClient.world := w;
     WyronGrpcClient.trace := app (WyronGrpcClient.trace st) [ev] |}.

(** The event of a call made with the token the client holds. *)
Definition call_event (self : WyronGrpcClient.t) : WyronGrpcClient.event :=
  WyronGrpcClient.Invoked (Some (WyronGrpcClient._metadata self))
    (WyronGrpcClient.timeout self).

Definition login_event (self : WyronGrpcClient.t) : WyronGrpcClient.event :=
  WyronGrpcClient.InvokedLogin (WyronGrpcClient.timeout self).

Definition login_message (self : WyronGrpcClient.t) : auth_pb2.LoginRequest :=
  {| auth_pb2.username := WyronGrpcClient.username self;
     auth_pb2.password := WyronGrpcClient.password self |}.

(** ** Listing users *)

(** A filter of [list_users] as it goes out: an entry, or nothing. *)
Definition entry (k : string) (o : option pyval) : dict :=
  match o with
  | Some v => [(k, v)]
  | None => []
  end.

(** A string filter that is neither [None] nor empty. *)
Definition nonempty (o : option string) : option string :=
  match o with
  | Some s => if String.eqb s "" then None else Some s
  | None => None
  end.

(** The fields of the outgoing request, in order. *)
Definition list_users_fields (social_id : option Z)
  (status search : option string) (limit skip : Z) (sort order : string)
  : dict :=
  app [("limit", PInt limit); ("skip", PInt skip); ("sort", PStr sort);
       ("order", PStr order)]
      (app (entry "social_id" (option_map PInt social_id))
           (app (entry "status" (option_map PStr (nonempty status)))
                (entry "search" (option_map PStr (nonempty search))))).

(** ** Sample sessions *)

(** A stale token: the call is refused, the login gives a fresh token and
    the second attempt is answered. *)
Definition expired_session : list WyronClient.delivery :=
  [answer 401 (PDict [("detail", PStr "token expired")]);
   answer 200 (PDict [("token", PStr "fresh")]);
   answer 200 (PDict [("data", PList [])])].

(** The login reply of a channel that comes without a token. *)
Definition tokenless_login : list (result pyval) := [Ok (PStr "")].

(** ** More vocabulary *)





(** Every peer of the user is bound to [client]. *)
Definition peers_bound (client : ServerResolver) (user : User.t) : Prop :=
  forall p, In p (User.peers user) -> PeerState._client p = Some client.

(** The REST client in the state [st], as the resolver of a peer: what its
    [get_server] answers when the peer is rendered in that state. *)
Definition rest_resolver {World : Type}
  (send : WyronClient.http_request -> World -> WyronClient.delivery * World)
  (is_error : Z -> bool) (st : WyronClient.state World) : ServerResolver :=
  {| get_server := fun server_id =>
       fst (WyronClient.get_server World send is_error server_id st) |}.

(** [i] is the first interface of the message [m] that carries the name
    [n]. *)
Definition matched_message_interface (n : string) (m : server_pb2.Server.t)
  (i : server_pb2.Interface.t) : Prop :=
  exists before after,
    server_pb2.Server.interfaces m = (before ++ i :: after)%list /\
    server_pb2.Interface.name i = n /\
    forall j, In j before -> server_pb2.Interface.name j <> n.

(** The profile of a peer on an interface that came over gRPC. *)
Definition grpc_profile (p : PeerState.t) (i : server_pb2.Interface.t)
  : string :=
  "[Interface]" ++ LF ++
  "    Address = " ++ PeerState.allowed_address p ++ LF ++
  "    DNS = " ++ server_pb2.Interface.dns i ++ LF ++
  "    PrivateKey = " ++ fmt_str (PeerState.private_key p) ++ LF ++
  LF ++
  "[Peer]" ++ LF ++
  "    AllowedIPs = 0.0.0.0/0" ++ LF ++
  "    Endpoint = " ++ server_pb2.Interface.endpoint i ++ ":"
                    ++ str_of_int (server_pb2.Interface.port i) ++ LF ++
  "    PublicKey = " ++ server_pb2.Interface.public_key i ++ LF ++
  "    ".

(** The header of a JSON user: its eleven required fields. *)
Definition user_header (u : dict) (user : User.t) : Prop :=
  known_keys user_fields u /\
  dict_get u "user_key" = Some (PStr (User.user_key user)) /\
  dict_get u "sub_token" = Some (PStr (User.sub_token user)) /\
  dict_get u "social_id" = Some (PInt (User.social_id user)) /\
  dict_get u "active" = Some (PBool (User.active user)) /\
  dict_get u "traffic_limit" = Some (PInt (User.traffic_limit user)) /\
  dict_get u "usage" = Some (PInt (User.usage user)) /\
  dict_get u "duration_seconds" = Some (PInt (User.duration_seconds user)) /\
  dict_get u "created_at" = Some (PInt (User.created_at user)) /\
  dict_get u "first_connected_at" =
    Some (PInt (User.first_connected_at user)) /\
  dict_get u "last_connected_at" =
    Some (PInt (User.last_connected_at user)) /\
  dict_get u "created_by" = Some (PStr (User.created_by user)).

(** ** More sample data *)

Definition fresh_login : list WyronClient.delivery :=
  [answer 200 (PDict [("token", PStr "fresh")])].

Definition alice_json : dict :=
  [("user_key", PStr "alice"); ("sub_token", PStr "sub-1");
   ("social_id", PInt 7); ("active", PBool true);
   ("traffic_limit", PInt 1000); ("usage", PInt 10);
   ("duration_seconds", PInt 3600); ("created_at", PInt 1700000000);
   ("first_connected_at", PInt 0); ("last_connected_at", PInt 0);
   ("created_by", PStr "admin")].

Definition alice : User.t :=
  User.mk "alice" "sub-1" 7 true 1000 10 3600 1700000000 0 0 "admin" [].

Definition alice_peer_json : pyval :=
  PDict [("server_id", PStr "srv1"); ("interface", PStr "wg0");
         ("allowed_address", PStr "10.0.0.2/32"); ("private_key", PStr "PK")].

(** The interfaces of a JSON server can be read: the key is left out, or it
    holds a list whose entries all parse. *)
Definition interfaces_readable (s : dict) : Prop :=
  dict_get s "interfaces" = None \/
  exists entries ifs,
    dict_get s "interfaces" = Some (PList entries) /\
    Forall2 (fun e i => WireGuardInterface_init e = Ok i) entries ifs.

(** The peers of a JSON user can be read, and give [peers]. *)
Definition peers_readable (u : dict) (peers : list PeerState.t) : Prop :=
  (dict_get u "peers" = None /\ peers = []) \/
  exists entries,
    dict_get u "peers" = Some (PList entries) /\
    Forall2 (fun e p => PeerState_init e = Ok p) entries peers.

Definition extra_key_json : dict :=
  [("name", PStr "srv1"); ("address", PStr "203.0.113.7");
   ("username", PStr "admin"); ("id", PStr "srv1")].

Definition null_interfaces_json : dict :=
  [("name", PStr "srv1"); ("address", PStr "203.0.113.7");
   ("username", PStr "admin"); ("interfaces", PNone)].

Definition nameless_json : dict :=
  [("address", PStr "203.0.113.7"); ("username", PStr "admin")].

Definition servers_reply : list WyronClient.delivery :=
  [answer 200 (PDict [("data", PList [PDict full_json; PDict bare_json])])].

Definition server_reply : list WyronClient.delivery :=
  [answer 200 (PDict [("data", PDict bare_json)])].

Definition empty_reply : list WyronClient.delivery :=
  [answer 200 (PDict [])].

(** The service confirms an update with the name of the server and then
    answers the lookup of that server. *)
Definition update_session : list WyronClient.delivery :=
  [answer 200 (PDict [("name", PStr "srv1")]);
   answer 200 (PDict [("data", PDict bare_json)])].

Definition alice_with_peer_json : pyval :=
  PDict (app alice_json [("peers", PList [alice_peer_json])]).

Definition users_reply : list WyronClient.delivery :=
  [answer 200 (PDict [("result", PList [alice_with_peer_json])])].

Definition user_reply : list WyronClient.delivery :=
  [answer 200 (PDict [("result", alice_with_peer_json)])].

(** A user record with other peers. *)
Definition with_peers (user : User.t) (peers : list PeerState.t) : User.t :=
  User.mk (User.user_key user) (User.sub_token user) (User.social_id user)
    (User.active user) (User.traffic_limit user) (User.usage user)
    (User.duration_seconds user) (User.created_at user)
    (User.first_connected_at user) (User.last_connected_at user)
    (User.created_by user) peers.


(** A gRPC server whose interface has no port set. *)
Definition portless_message : server_pb2.Server.t :=
  server_pb2.Server.mk "srv1" "203.0.113.7" "admin" "" 0
    [server_pb2.Interface.mk "wg0" "" "" "vpn.example.com" "" 0 0 "PUB"].

Definition grpc_peer (m : server_pb2.Server.t) : PeerState.t :=
  PeerState.mk "srv1" "wg0" "10.0.0.2/32" (Some "PK")
    (Some {| get_server := fun _ => Ok (WyronGrpcClient._parse_server m) |}).

Definition not_found_reply : list WyronClient.delivery :=
  [answer 404 (PDict [("detail", PStr "server not found")])].

Definition rest_peer (script : list WyronClient.delivery) : PeerState.t :=
  PeerState.mk "srv1" "wg0" "10.0.0.2/32" (Some "PK")
    (Some (rest_resolver scripted is_error_4xx_5xx
             (rest_state (Some "tok") script))).

Definition wg0_no_dns : WireGuardInterface.t :=
  WireGuardInterface.mk "wg0" None None (Some "vpn.example.com") None
    (Some 51820) None (Some "PUB").

(** The gRPC client in the state [st], as the resolver of a peer. *)
Definition grpc_resolver {World : Type}
  (auth_Login :
     WyronGrpcClient.stub World auth_pb2.LoginRequest auth_pb2.LoginResponse)
  (server_Get :
     WyronGrpcClient.stub World server_pb2.ServerIDRequest server_pb2.Server.t)
  (st : WyronGrpcClient.state World) : ServerResolver :=
  {| get_server := fun server_id =>
       fst (WyronGrpcClient.get_server World auth_Login server_Get server_id
              st) |}.

Definition scripted_Get
  : WyronGrpcClient.stub (list (result pyval)) server_pb2.ServerIDRequest
      server_pb2.Server.t :=
  scripted_stub (fun _ => portless_message).

Definition grpc_bound_peer (script : list (result pyval)) : PeerState.t :=
  PeerState.mk "srv1" "wg0" "10.0.0.2/32" (Some "PK")
    (Some (grpc_resolver scripted_Login scripted_Get
             (grpc_state (Some "tok") script))).

(** * Properties *)

(** ** Formatting *)

Example str_of_int_pos : str_of_int 51820 = "51820".
Proof. reflexivity. Qed.

Example str_of_int_zero : str_of_int 0 = "0".
Proof. reflexivity. Qed.

Example str_of_int_neg : str_of_int (-7) = "-7".
Proof. reflexivity. Qed.

Lemma truthy_str_false (o : option string) :
  truthy_str o = false <-> empty_or_absent o.
Proof.
  unfold empty_or_absent. destruct o as [s|]; simpl.
  - rewrite negb_false_iff, String.eqb_eq. split.
    + intros ->. now right.
    + intros [H|H]; [discriminate | now injection H].
  - split; [now left | reflexivity].
Qed.

Lemma truthy_str_true (o : option string) :
  truthy_str o = true <-> present o.
Proof.
  unfold present. destruct o as [s|]; simpl.
  - rewrite negb_true_iff, String.eqb_neq. split.
    + intros H. now exists s.
    + intros (s' & E & H). now injection E as ->.
  - split; [discriminate | intros (s & E & _); discriminate].
Qed.

(** ** Looking an interface up by name *)

Section FirstNamed.

Variable n : string.

Lemma first_named_none (s : Server.t) :
  PeerState.first_named n (Server.interfaces s) = None <->
  no_interface_named n s.
Proof.
  unfold no_interface_named, PeerState.first_named.
  generalize (Server.interfaces s) as l.
  induction l as [|j l IH]; simpl.
  - split; [intros _ i [] | reflexivity].
  - destruct (String.eqb_spec (WireGuardInterface.name j) n) as [E|E].
    + split; [discriminate|]. intros H. exfalso. apply (H j); auto.
    + rewrite IH. split.
      * intros H i [<-|Hi]; auto.
      * intros H i Hi. apply H. now right.
Qed.

Lemma first_named_some (s : Server.t) (i : WireGuardInterface.t) :
  PeerState.first_named n (Server.interfaces s) = Some i <->
  matched_interface n s i.
Proof.
  unfold matched_interface, PeerState.first_named.
  generalize (Server.interfaces s) as l.
  induction l as [|j l IH]; simpl.
  - split; [discriminate|].
    intros (before & after & E & _). now destruct before.
  - destruct (String.eqb_spec (WireGuardInterface.name j) n) as [E|E].
    + split.
      * intros [= <-]. exists [], l. repeat split; auto; now intros ? [].
      * intros (before & after & El & Hn & Hb).
        destruct before as [|b before]; simpl in El.
        -- now injection El as ->.
        -- injection El as Ej _. exfalso.
           apply (Hb b); [now left | now rewrite <- Ej].
    + rewrite IH. split.
      * intros (before & after & -> & Hn & Hb).
        exists (j :: before), after. repeat split; auto.
        intros k [<-|Hk]; auto.
      * intros (before & after & El & Hn & Hb).
        destruct before as [|b before]; simpl in El.
        -- injection El as Ej _. rewrite Ej in E. contradiction.
        -- injection El as _ El. exists before, after.
           repeat split; auto. intros k Hk. apply Hb. now right.
Qed.

End FirstNamed.

(** ** Rendering a profile *)

Section Render.

Variable p : PeerState.t.

Lemma generate_config_keyless :
  empty_or_absent (PeerState.private_key p) ->
  PeerState.generate_config p =
  Raise (InterfaceMissingKey "Peer private_key missing").
Proof.
  intros H. apply truthy_str_false in H.
  unfold PeerState.generate_config. now rewrite H.
Qed.

Lemma generate_config_unbound :
  present (PeerState.private_key p) ->
  PeerState._client p = None ->
  PeerState.generate_config p =
  Raise (InterfaceNotFound "Peer has no client bound").
Proof.
  intros H Hc. apply truthy_str_true in H.
  unfold PeerState.generate_config, PeerState._resolve_iface,
    PeerState._resolve_server.
  now rewrite H, Hc.
Qed.

Lemma resolve_iface_bound (s : Server.t) :
  resolves_to p s ->
  PeerState._resolve_iface p =
  match PeerState.first_named (PeerState.interface p) (Server.interfaces s) with
  | None =>
      Raise (InterfaceNotFound
               ("Interface '" ++ PeerState.interface p
                ++ "' not found on server '" ++ PeerState.server_id p ++ "'"))
  | Some iface => Ok iface
  end.
Proof.
  intros (c & Hc & Hs).
  unfold PeerState._resolve_iface, PeerState._resolve_server.
  now rewrite Hc, Hs.
Qed.

Lemma generate_config_no_interface (s : Server.t) :
  present (PeerState.private_key p) ->
  resolves_to p s ->
  no_interface_named (PeerState.interface p) s ->
  PeerState.generate_config p =
  Raise (InterfaceNotFound
           ("Interface '" ++ PeerState.interface p
            ++ "' not found on server '" ++ PeerState.server_id p ++ "'")).
Proof.
  intros H Hs Hn. apply truthy_str_true in H. apply first_named_none in Hn.
  unfold PeerState.generate_config.
  now rewrite H, (resolve_iface_bound s Hs), Hn.
Qed.

Lemma generate_config_matched (s : Server.t) (i : WireGuardInterface.t) :
  present (PeerState.private_key p) ->
  resolves_to p s ->
  matched_interface (PeerState.interface p) s i ->
  PeerState.generate_config p =
  if negb (truthy_str (WireGuardInterface.endpoint i)) then
    Raise (InterfaceMissingKey "Interface endpoint missing")
  else if negb (truthy_str (WireGuardInterface.public_key i)) then
    Raise (InterfaceMissingKey "Interface public_key missing")
  else Ok (PeerState.render p i).
Proof.
  intros H Hs Hm. apply truthy_str_true in H. apply first_named_some in Hm.
  unfold PeerState.generate_config.
  now rewrite H, (resolve_iface_bound s Hs), Hm.
Qed.

(** A rendered profile is the evidence that every check passed. *)
Lemma generate_config_ok_inv (text : string) :
  PeerState.generate_config p = Ok text ->
  present (PeerState.private_key p) /\
  exists s i,
    resolves_to p s /\
    matched_interface (PeerState.interface p) s i /\
    present (WireGuardInterface.endpoint i) /\
    present (WireGuardInterface.public_key i) /\
    text = PeerState.render p i.
Proof.
  unfold PeerState.generate_config, PeerState._resolve_iface,
    PeerState._resolve_server.
  destruct (truthy_str (PeerState.private_key p)) eqn:Hk; simpl;
    [|discriminate].
  destruct (PeerState._client p) as [c|] eqn:Hc; simpl; [|discriminate].
  destruct (get_server c (PeerState.server_id p)) as [s| |] eqn:Hs; simpl;
    try discriminate.
  destruct (PeerState.first_named _ _) as [i|] eqn:Hi; simpl;
    [|discriminate].
  destruct (truthy_str (WireGuardInterface.endpoint i)) eqn:He; simpl;
    [|discriminate].
  destruct (truthy_str (WireGuardInterface.public_key i)) eqn:Hp; simpl;
    [|discriminate].
  intros [= <-]. split; [now apply truthy_str_true|].
  exists s, i. repeat split.
  - now exists c.
  - now apply first_named_some.
  - now apply truthy_str_true.
  - now apply truthy_str_true.
Qed.

End Render.

Ltac present_by_computation :=
  unfold present; eexists; split; [reflexivity | discriminate].

Lemma sample_resolves (i : WireGuardInterface.t) :
  resolves_to (peer_on i) (server_of i).
Proof. exists (resolver_of i). split; reflexivity. Qed.

Lemma sample_matched (i : WireGuardInterface.t) :
  WireGuardInterface.name i = "wg0" ->
  matched_interface "wg0" (server_of i) i.
Proof.
  intros H. exists [], []. repeat split; auto; now intros ? [].
Qed.

(** C1. The checks of [generate_config] come in a fixed order and the first
    one that fails decides the error: (1) a private key that is absent or
    empty gives [InterfaceMissingKey], whatever the other fields and the
    resolver are; (2) otherwise a peer without a resolver gives the "not
    bound" error; (3) otherwise, when the resolved server has no interface
    of the peer's interface name, "interface not found" is raised;
    (4) otherwise, on the first interface of that name, an absent or empty
    endpoint, and then an absent or empty public key, gives
    [InterfaceMissingKey] with a message that names the field; the profile
    is rendered when all of these pass, and only then. *)
Theorem generate_config_check_order (p : PeerState.t) :
  (empty_or_absent (PeerState.private_key p) ->
   PeerState.generate_config p =
   Raise (InterfaceMissingKey "Peer private_key missing"))
  /\
  (present (PeerState.private_key p) ->
   PeerState._client p = None ->
   PeerState.generate_config p =
   Raise (InterfaceNotFound "Peer has no client bound"))
  /\
  (forall s,
     present (PeerState.private_key p) ->
     resolves_to p s ->
     no_interface_named (PeerState.interface p) s ->
     PeerState.generate_config p =
     Raise (InterfaceNotFound
              ("Interface '" ++ PeerState.interface p
               ++ "' not found on server '" ++ PeerState.server_id p ++ "'")))
  /\
  (forall s i,
     present (PeerState.private_key p) ->
     resolves_to p s ->
     matched_interface (PeerState.interface p) s i ->
     (empty_or_absent (WireGuardInterface.endpoint i) ->
      PeerState.generate_config p =
      Raise (InterfaceMissingKey "Interface endpoint missing"))
     /\
     (present (WireGuardInterface.endpoint i) ->
      empty_or_absent (WireGuardInterface.public_key i) ->
      PeerState.generate_config p =
      Raise (InterfaceMissingKey "Interface public_key missing"))
     /\
     (present (WireGuardInterface.endpoint i) ->
      present (WireGuardInterface.public_key i) ->
      PeerState.generate_config p = Ok (PeerState.render p i)))
  /\
  (forall text,
     PeerState.generate_config p = Ok text ->
     present (PeerState.private_key p) /\
     exists s i,
       resolves_to p s /\
       matched_interface (PeerState.interface p) s i /\
       present (WireGuardInterface.endpoint i) /\
       present (WireGuardInterface.public_key i) /\
       text = PeerState.render p i).
Proof.
  split; [apply generate_config_keyless|].
  split; [apply generate_config_unbound|].
  split; [apply generate_config_no_interface|].
  split; [|apply generate_config_ok_inv].
  intros s i Hk Hs Hm.
  rewrite (generate_config_matched p s i Hk Hs Hm).
  repeat split.
  - intros He. apply truthy_str_false in He. now rewrite He.
  - intros He Hp. apply truthy_str_true in He.
    apply truthy_str_false in Hp. now rewrite He, Hp.
  - intros He Hp. apply truthy_str_true in He, Hp. now rewrite He, Hp.
Qed.

Lemma generate_config_check_order_witness :
  PeerState.generate_config keyless_peer =
    Raise (InterfaceMissingKey "Peer private_key missing") /\
  PeerState.generate_config unbound_peer =
    Raise (InterfaceNotFound "Peer has no client bound") /\
  PeerState.generate_config stray_peer =
    Raise (InterfaceNotFound "Interface 'wg9' not found on server 'srv1'") /\
  PeerState.generate_config (peer_on wg0_no_endpoint) =
    Raise (InterfaceMissingKey "Interface endpoint missing") /\
  PeerState.generate_config (peer_on wg0_no_public_key) =
    Raise (InterfaceMissingKey "Interface public_key missing") /\
  PeerState.generate_config (peer_on wg0) = Ok sample_profile.
Proof.
  split.
  { apply (proj1 (generate_config_check_order keyless_peer)). now left. }
  split.
  { apply (proj1 (proj2 (generate_config_check_order unbound_peer)));
      [present_by_computation | reflexivity]. }
  split.
  { apply (proj1 (proj2 (proj2 (generate_config_check_order stray_peer)))
             srv1); [present_by_computation | | ].
    - exists srv1_resolver. split; reflexivity.
    - intros i [<-|[]]. discriminate. }
  split.
  { apply (proj1 (proj2 (proj2 (proj2
             (generate_config_check_order (peer_on wg0_no_endpoint)))))
             (server_of wg0_no_endpoint) wg0_no_endpoint);
      [present_by_computation | apply sample_resolves
      | now apply sample_matched | now left]. }
  split.
  { apply (proj1 (proj2 (proj2 (proj2
             (generate_config_check_order (peer_on wg0_no_public_key)))))
             (server_of wg0_no_public_key) wg0_no_public_key);
      [present_by_computation | apply sample_resolves
      | now apply sample_matched | present_by_computation | now right]. }
  { apply (proj1 (proj2 (proj2 (proj2
             (generate_config_check_order (peer_on wg0)))))
             (server_of wg0) wg0);
      [present_by_computation | apply sample_resolves
      | now apply sample_matched | present_by_computation
      | present_by_computation]. }
Defined.

Lemma violates_raises (p : PeerState.t) (c : precondition) :
  violates p c ->
  PeerState.generate_config p =
  Raise match c with
        | HasPrivateKey => InterfaceMissingKey "Peer private_key missing"
        | IsBound => InterfaceNotFound "Peer has no client bound"
        | HasInterface =>
            InterfaceNotFound
              ("Interface '" ++ PeerState.interface p
               ++ "' not found on server '" ++ PeerState.server_id p ++ "'")
        end.
Proof.
  destruct c; simpl.
  - apply generate_config_keyless.
  - intros [Hk Hc]. now apply generate_config_unbound.
  - intros (Hk & s & Hs & Hn). now apply (generate_config_no_interface p s).
Qed.

Lemma stray_peer_violates : violates stray_peer HasInterface.
Proof.
  split; [present_by_computation|].
  exists srv1. split.
  - exists srv1_resolver. split; reflexivity.
  - intros i [<-|[]]. discriminate.
Qed.

Lemma unbound_peer_violates : violates unbound_peer IsBound.
Proof. split; [present_by_computation | reflexivity]. Qed.

(** C2, as stated, does not hold: a peer without a resolver and a peer whose
    interface the server does not have fail different preconditions, and
    both errors are of the class [InterfaceNotFound]. *)
Lemma error_kinds_not_distinct :
  ~ (forall (p1 p2 : PeerState.t) (c1 c2 : precondition) (e1 e2 : exn),
       violates p1 c1 -> violates p2 c2 -> c1 <> c2 ->
       PeerState.generate_config p1 = Raise e1 ->
       PeerState.generate_config p2 = Raise e2 ->
       class_of e1 <> class_of e2).
Proof.
  intros H.
  apply (H unbound_peer stray_peer IsBound HasInterface
           (InterfaceNotFound "Peer has no client bound")
           (InterfaceNotFound "Interface 'wg9' not found on server 'srv1'")).
  - apply unbound_peer_violates.
  - apply stray_peer_violates.
  - discriminate.
  - reflexivity.
  - reflexivity.
  - reflexivity.
Qed.

(** C2, amended. A missing key is raised as [InterfaceMissingKey]; an unbound
    peer and an interface that is not found are both raised as
    [InterfaceNotFound], and it is the message that tells them apart: "Peer
    has no client bound" for the unbound peer only. *)
Theorem precondition_error_kinds (p : PeerState.t) (c : precondition) :
  violates p c ->
  exists e,
    PeerState.generate_config p = Raise e /\
    class_of e = kind_raised c /\
    (c = HasPrivateKey -> class_of e <> kind_raised IsBound /\
                          class_of e <> kind_raised HasInterface) /\
    (c = IsBound -> message_of e = Some "Peer has no client bound") /\
    (c = HasInterface -> message_of e <> Some "Peer has no client bound").
Proof.
  intros H. rewrite (violates_raises p c H).
  eexists. split; [reflexivity|].
  destruct c; simpl; repeat split; try discriminate; try reflexivity.
Qed.

Lemma precondition_error_kinds_witness :
  exists e,
    PeerState.generate_config stray_peer = Raise e /\
    class_of e = ClsInterfaceNotFound /\
    message_of e <> Some "Peer has no client bound".
Proof.
  destruct (precondition_error_kinds stray_peer HasInterface)
    as (e & He & Hc & _ & _ & Hm).
  - split; [present_by_computation|].
    exists srv1. split.
    + exists srv1_resolver. split; reflexivity.
    + intros i [<-|[]]. discriminate.
  - exists e. split; [exact He|]. split; [exact Hc|]. now apply Hm.
Defined.

(** C6. The peer of the example (server_id "srv1", interface "wg0",
    allowed_address "10.0.0.2/32", private_key "PK"), bound to a resolver
    that returns a server whose interface "wg0" has endpoint
    "vpn.example.com", port 51820, dns "1.1.1.1" and public_key "PUB",
    renders exactly the two-section profile [sample_profile]. *)
Theorem generate_config_example (c : ServerResolver) (s : Server.t)
  (i : WireGuardInterface.t) :
  get_server c "srv1" = Ok s ->
  matched_interface "wg0" s i ->
  WireGuardInterface.endpoint i = Some "vpn.example.com" ->
  WireGuardInterface.port i = Some 51820 ->
  WireGuardInterface.dns i = Some "1.1.1.1" ->
  WireGuardInterface.public_key i = Some "PUB" ->
  PeerState.generate_config
    (PeerState.mk "srv1" "wg0" "10.0.0.2/32" (Some "PK") (Some c))
  = Ok sample_profile.
Proof.
  intros Hs Hm He Hport Hdns Hpub.
  rewrite (generate_config_matched _ s i).
  - rewrite He, Hpub. simpl. unfold PeerState.render. simpl.
    rewrite He, Hport, Hdns, Hpub. reflexivity.
  - present_by_computation.
  - exists c. split; [reflexivity | exact Hs].
  - exact Hm.
Qed.

Lemma generate_config_example_witness :
  PeerState.generate_config sample_peer = Ok sample_profile.
Proof.
  apply (generate_config_example srv1_resolver srv1 wg0);
    try reflexivity.
  exists [], []. repeat split; auto; now intros ? [].
Defined.

Lemma append_assoc (a b c : string) : (a ++ b) ++ c = a ++ (b ++ c).
Proof. induction a as [|x a IH]; simpl; [reflexivity | now rewrite IH]. Qed.

(** The text depends on the peer through its address and key, and on the
    interface through its dns, endpoint, port and public key. *)
Lemma render_ext (p1 p2 : PeerState.t) (i1 i2 : WireGuardInterface.t) :
  PeerState.allowed_address p1 = PeerState.allowed_address p2 ->
  PeerState.private_key p1 = PeerState.private_key p2 ->
  WireGuardInterface.dns i1 = WireGuardInterface.dns i2 ->
  WireGuardInterface.endpoint i1 = WireGuardInterface.endpoint i2 ->
  WireGuardInterface.port i1 = WireGuardInterface.port i2 ->
  WireGuardInterface.public_key i1 = WireGuardInterface.public_key i2 ->
  PeerState.render p1 i1 = PeerState.render p2 i2.
Proof.
  intros Ha Hk Hd He Hp Hpk. unfold PeerState.render.
  now rewrite Ha, Hk, Hd, He, Hp, Hpk.
Qed.

(** C7. Rendering is deterministic.  Two peers with the same field values
    whose resolvers answer alike for the peer's server give the same outcome,
    byte for byte; and a rendered text depends on nothing but the peer's
    address and key and the resolved interface's dns, endpoint, port and
    public key. *)
Theorem generate_config_deterministic (p1 p2 : PeerState.t) :
  (forall c1 c2,
     PeerState.server_id p1 = PeerState.server_id p2 ->
     PeerState.interface p1 = PeerState.interface p2 ->
     PeerState.allowed_address p1 = PeerState.allowed_address p2 ->
     PeerState.private_key p1 = PeerState.private_key p2 ->
     PeerState._client p1 = Some c1 ->
     PeerState._client p2 = Some c2 ->
     get_server c1 (PeerState.server_id p1) =
     get_server c2 (PeerState.server_id p2) ->
     PeerState.generate_config p1 = PeerState.generate_config p2)
  /\
  (forall s1 s2 i1 i2 text1 text2,
     PeerState.allowed_address p1 = PeerState.allowed_address p2 ->
     PeerState.private_key p1 = PeerState.private_key p2 ->
     resolves_to p1 s1 ->
     resolves_to p2 s2 ->
     matched_interface (PeerState.interface p1) s1 i1 ->
     matched_interface (PeerState.interface p2) s2 i2 ->
     WireGuardInterface.dns i1 = WireGuardInterface.dns i2 ->
     WireGuardInterface.endpoint i1 = WireGuardInterface.endpoint i2 ->
     WireGuardInterface.port i1 = WireGuardInterface.port i2 ->
     WireGuardInterface.public_key i1 = WireGuardInterface.public_key i2 ->
     PeerState.generate_config p1 = Ok text1 ->
     PeerState.generate_config p2 = Ok text2 ->
     text1 = text2).
Proof.
  split.
  - intros c1 c2 Hid Hif Ha Hk Hc1 Hc2 Hs.
    unfold PeerState.generate_config, PeerState._resolve_iface,
      PeerState._resolve_server.
    rewrite Hc1, Hc2, Hs, Hk, Hif, Hid.
    destruct (truthy_str (PeerState.private_key p2)); simpl; [|reflexivity].
    destruct (get_server c2 (PeerState.server_id p2)) as [s| |]; simpl;
      try reflexivity.
    destruct (PeerState.first_named _ _) as [i|]; simpl; [|reflexivity].
    destruct (truthy_str (WireGuardInterface.endpoint i)); simpl;
      [|reflexivity].
    destruct (truthy_str (WireGuardInterface.public_key i)); simpl;
      [|reflexivity].
    f_equal. unfold PeerState.render. now rewrite Ha, Hk.
  - intros s1 s2 i1 i2 text1 text2 Ha Hk Hs1 Hs2 Hm1 Hm2 Hd He Hp Hpk H1 H2.
    assert (K1 : present (PeerState.private_key p1)).
    { now apply (generate_config_ok_inv p1 text1). }
    assert (K2 : present (PeerState.private_key p2)) by now rewrite <- Hk.
    rewrite (generate_config_matched p1 s1 i1 K1 Hs1 Hm1) in H1.
    rewrite (generate_config_matched p2 s2 i2 K2 Hs2 Hm2) in H2.
    rewrite <- He, <- Hpk in H2.
    destruct (truthy_str (WireGuardInterface.endpoint i1)); simpl in *;
      [|discriminate].
    destruct (truthy_str (WireGuardInterface.public_key i1)); simpl in *;
      [|discriminate].
    injection H1 as <-. injection H2 as <-.
    now apply render_ext.
Qed.

Lemma generate_config_deterministic_witness :
  PeerState.generate_config sample_peer =
  PeerState.generate_config (peer_on wg0).
Proof.
  apply (proj1 (generate_config_deterministic sample_peer (peer_on wg0))
           srv1_resolver (resolver_of wg0)); reflexivity.
Defined.

(** C10. The port of the resolved interface is never checked: a peer that
    passes the four checks and whose interface has [port = None] is rendered,
    and the profile has the line "    Endpoint = <endpoint>:None". *)
Theorem generate_config_port_none (p : PeerState.t) (s : Server.t)
  (i : WireGuardInterface.t) (e : string) :
  present (PeerState.private_key p) ->
  resolves_to p s ->
  matched_interface (PeerState.interface p) s i ->
  WireGuardInterface.endpoint i = Some e ->
  e <> "" ->
  present (WireGuardInterface.public_key i) ->
  WireGuardInterface.port i = None ->
  exists before after,
    PeerState.generate_config p =
    Ok (before ++ LF ++ "    Endpoint = " ++ e ++ ":None" ++ LF ++ after).
Proof.
  intros Hk Hs Hm He Hne Hpk Hport.
  rewrite (generate_config_matched p s i Hk Hs Hm).
  assert (Te : truthy_str (WireGuardInterface.endpoint i) = true).
  { apply truthy_str_true. now exists e. }
  apply truthy_str_true in Hpk. rewrite Te, Hpk. simpl.
  exists ("[Interface]" ++ LF ++
          "    Address = " ++ PeerState.allowed_address p ++ LF ++
          "    DNS = " ++ fmt_str (WireGuardInterface.dns i) ++ LF ++
          "    PrivateKey = " ++ fmt_str (PeerState.private_key p) ++ LF ++
          LF ++ "[Peer]" ++ LF ++ "    AllowedIPs = 0.0.0.0/0"),
         ("    PublicKey = " ++ fmt_str (WireGuardInterface.public_key i)
          ++ LF ++ "    ").
  f_equal. unfold PeerState.render. rewrite He, Hport.
  repeat rewrite append_assoc. reflexivity.
Qed.

Lemma generate_config_port_none_witness :
  exists before after,
    PeerState.generate_config (peer_on wg0_no_port) =
    Ok (before ++ LF ++ "    Endpoint = vpn.example.com:None" ++ LF ++ after).
Proof.
  apply (generate_config_port_none (peer_on wg0_no_port)
           (server_of wg0_no_port) wg0_no_port "vpn.example.com").
  - present_by_computation.
  - apply sample_resolves.
  - now apply sample_matched.
  - reflexivity.
  - discriminate.
  - present_by_computation.
  - reflexivity.
Defined.

(** ** Parsing servers *)

Lemma mem_In (k : string) (l : list string) : mem k l = true <-> In k l.
Proof.
  unfold mem. rewrite existsb_exists. split.
  - intros (x & Hx & E). apply String.eqb_eq in E. now subst.
  - intros H. exists k. split; [exact H | apply String.eqb_refl].
Qed.

Lemma dict_get_In (d : dict) (k : string) (v : pyval) :
  dict_get d k = Some v -> In k (dict_keys d).
Proof.
  induction d as [|[k' v'] d IH]; simpl; [discriminate|].
  destruct (String.eqb_spec k' k) as [->|_]; auto.
Qed.

Lemma keys_set_In (d : dict) (k x : string) :
  In x (keys_set d k) <-> In x (dict_keys d) \/ x = k.
Proof.
  unfold keys_set.
  destruct (existsb (String.eqb k) (dict_keys d)) eqn:E.
  - split; [auto|]. intros [H | ->]; [exact H|].
    now apply mem_In.
  - rewrite in_app_iff. simpl. intuition.
Qed.

Lemma bind_kwargs_ok (fields required kw : list string) :
  (forall k, In k kw -> In k fields) ->
  (forall f, In f required -> In f kw) ->
  bind_kwargs fields required kw = Ok tt.
Proof.
  intros Hk Hr. unfold bind_kwargs.
  assert (E1 : forallb (fun k => mem k fields) kw = true).
  { apply forallb_forall. intros k Hin. apply mem_In. auto. }
  assert (E2 : forallb (fun f => mem f kw) required = true).
  { apply forallb_forall. intros f Hin. apply mem_In. auto. }
  now rewrite E1, E2.
Qed.

Lemma as_opt_str_entry (d : dict) (k : string) (o : option string) :
  opt_str_entry d k o -> as_opt_str k (dict_get d k) = Ok o.
Proof.
  destruct o as [v|]; simpl.
  - now intros ->.
  - now intros [-> | ->].
Qed.

Lemma as_opt_int_entry (d : dict) (k : string) (o : option Z) :
  opt_int_entry d k o -> as_opt_int k (dict_get d k) = Ok o.
Proof.
  destruct o as [v|]; simpl.
  - now intros ->.
  - now intros [-> | ->].
Qed.

Lemma Server_init_header (d : dict) (n a u : string) (dn : option string)
  (ca : option Z) (ifs : list WireGuardInterface.t) :
  server_header d n a u dn ca ->
  Server_init d ifs = Ok (Server.mk n a u dn ca ifs).
Proof.
  intros (Hk & Hn & Ha & Hu & Hdn & Hca). unfold Server_init.
  rewrite bind_kwargs_ok.
  - simpl. rewrite Hn, Ha, Hu. simpl.
    rewrite (as_opt_str_entry _ _ _ Hdn). simpl.
    now rewrite (as_opt_int_entry _ _ _ Hca).
  - intros k Hin. apply keys_set_In in Hin as [Hin| ->]; auto.
    simpl; auto 10.
  - intros f [<-|[<-|[<-|[]]]]; apply keys_set_In; left;
      eapply dict_get_In; eassumption.
Qed.

(** The record [Server_init] builds carries the interfaces it was given. *)
Lemma Server_init_interfaces (d : dict) (ifs : list WireGuardInterface.t)
  (srv : Server.t) :
  Server_init d ifs = Ok srv -> Server.interfaces srv = ifs.
Proof.
  unfold Server_init.
  destruct (bind_kwargs _ _ _); simpl; try discriminate.
  destruct (as_str "name" _); simpl; try discriminate.
  destruct (as_str "address" _); simpl; try discriminate.
  destruct (as_str "username" _); simpl; try discriminate.
  destruct (as_opt_str "display_name" _); simpl; try discriminate.
  destruct (as_opt_int "created_at" _); simpl; try discriminate.
  now intros [= <-].
Qed.

(** [rmap] keeps the length and the order of the list it maps. *)
Lemma rmap_Forall2 {A B : Type} (f : A -> result B) (l : list A)
  (l' : list B) :
  rmap f l = Ok l' <-> Forall2 (fun x y => f x = Ok y) l l'.
Proof.
  revert l'. induction l as [|x l IH]; intros l'; simpl.
  - split.
    + intros [= <-]. constructor.
    + intros H. now inversion H.
  - split.
    + destruct (f x) as [y| |] eqn:Ex; simpl; try discriminate.
      destruct (rmap f l) as [ys| |] eqn:El; simpl; try discriminate.
      intros [= <-]. constructor; [exact Ex | now apply IH].
    + intros H. inversion H as [|? y ? ys Ex Hl]; subst.
      rewrite Ex. simpl. apply IH in Hl. now rewrite Hl.
Qed.

Lemma Forall2_nth_error {A B : Type} (R : A -> B -> Prop) (l : list A)
  (l' : list B) :
  Forall2 R l l' ->
  length l' = length l /\
  forall k x, nth_error l k = Some x ->
              exists y, nth_error l' k = Some y /\ R x y.
Proof.
  induction 1 as [|x y l l' Hxy Hl [IHlen IH]]; simpl.
  - split; [reflexivity|]. intros [|k] x; discriminate.
  - split; [now rewrite IHlen|].
    intros [|k] z; simpl.
    + intros [= <-]. now exists y.
    + apply IH.
Qed.

(** C9. A JSON server whose interface list is left out or is empty parses
    to a [Server] with an empty interface list, not to an error; and whenever
    a server with [n] interface entries parses, the record has [n]
    interfaces, the k-th of them parsed from the k-th entry; it does parse
    when its header and each entry do. *)
Theorem parse_server_interfaces (s : dict) :
  (forall n a u dn ca,
     server_header s n a u dn ca ->
     dict_get s "interfaces" = None \/
     dict_get s "interfaces" = Some (PList []) ->
     WyronClient._parse_server s = Ok (Server.mk n a u dn ca []))
  /\
  (forall srv entries,
     dict_get s "interfaces" = Some (PList entries) ->
     WyronClient._parse_server s = Ok srv ->
     length (Server.interfaces srv) = length entries /\
     forall k entry,
       nth_error entries k = Some entry ->
       exists i, nth_error (Server.interfaces srv) k = Some i /\
                 WireGuardInterface_init entry = Ok i)
  /\
  (forall n a u dn ca entries ifs,
     server_header s n a u dn ca ->
     dict_get s "interfaces" = Some (PList entries) ->
     Forall2 (fun entry i => WireGuardInterface_init entry = Ok i)
       entries ifs ->
     WyronClient._parse_server s = Ok (Server.mk n a u dn ca ifs)).
Proof.
  unfold WyronClient._parse_server. split; [|split].
  - intros n a u dn ca Hh [-> | ->]; simpl;
      now apply Server_init_header.
  - intros srv entries ->. simpl.
    destruct (rmap WireGuardInterface_init entries) as [ifs| |] eqn:E;
      simpl; try discriminate.
    intros Hs. apply Server_init_interfaces in Hs. rewrite Hs.
    apply rmap_Forall2 in E. now apply Forall2_nth_error in E.
  - intros n a u dn ca entries ifs Hh -> Hf. simpl.
    apply rmap_Forall2 in Hf. rewrite Hf. simpl.
    now apply Server_init_header.
Qed.

Lemma bare_json_header :
  server_header bare_json "srv1" "203.0.113.7" "admin" None None.
Proof.
  repeat split; try (now left).
  intros k [<-|[<-|[<-|[]]]]; simpl; auto 10.
Qed.

Lemma two_interfaces_json_header :
  server_header two_interfaces_json "srv1" "203.0.113.7" "admin" None None.
Proof.
  repeat split; try (now left).
  intros k [<-|[<-|[<-|[<-|[]]]]]; simpl; auto 10.
Qed.

Lemma parse_server_interfaces_witness :
  WyronClient._parse_server bare_json =
    Ok (Server.mk "srv1" "203.0.113.7" "admin" None None []) /\
  WyronClient._parse_server two_interfaces_json =
    Ok (Server.mk "srv1" "203.0.113.7" "admin" None None
          [WireGuardInterface.mk "wg0" (Some "office") (Some "10.0.0.0/24")
             (Some "vpn.example.com") (Some "1.1.1.1") (Some 51820)
             (Some 1700000000) (Some "PUB");
           WireGuardInterface.mk "wg1" None None None None (Some 51821)
             None None]).
Proof.
  split.
  - apply (proj1 (parse_server_interfaces bare_json)).
    + exact bare_json_header.
    + left. reflexivity.
  - apply (proj2 (proj2 (parse_server_interfaces two_interfaces_json))
             "srv1" "203.0.113.7" "admin" None None [wg0_json; wg1_json]).
    + exact two_interfaces_json_header.
    + reflexivity.
    + repeat constructor.
Defined.

(** *** The two transports *)

Section SameState.

Variable lax : bool.

Lemma as_opt_str_field (d : dict) (k v : string) :
  str_field lax d k v ->
  exists o, as_opt_str k (dict_get d k) = Ok o /\
            or_empty o = Some v /\
            (lax = false -> o = Some v).
Proof.
  intros [E | (L & -> & [E | E])]; rewrite E; simpl.
  - exists (Some v). auto.
  - exists None. repeat split. intros H. congruence.
  - exists None. repeat split. intros H. congruence.
Qed.

Lemma as_opt_int_field (d : dict) (k : string) (z : Z) :
  int_field lax d k z ->
  exists o, as_opt_int k (dict_get d k) = Ok o /\
            or_zero o = Some z /\
            (lax = false -> o = Some z).
Proof.
  intros [E | (L & -> & [E | E])]; rewrite E; simpl.
  - exists (Some z). auto.
  - exists None. repeat split. intros H. congruence.
  - exists None. repeat split. intros H. congruence.
Qed.

Lemma parse_interface_represented (j : pyval) (i : server_pb2.Interface.t) :
  represents_interface lax j i ->
  exists r,
    WireGuardInterface_init j = Ok r /\
    interface_with_defaults r = WyronGrpcClient._parse_interface i /\
    (lax = false -> r = WyronGrpcClient._parse_interface i).
Proof.
  intros (kw & -> & Hk & Hn & Hdn & Hsub & Hep & Hdns & Hport & Hca & Hpk).
  apply as_opt_str_field in Hdn as (dn & Edn & Ddn & Sdn).
  apply as_opt_str_field in Hsub as (sub & Esub & Dsub & Ssub).
  apply as_opt_str_field in Hep as (ep & Eep & Dep & Sep).
  apply as_opt_str_field in Hdns as (dns & Edns & Ddns & Sdns).
  apply as_opt_int_field in Hport as (port & Eport & Dport & Sport).
  apply as_opt_int_field in Hca as (ca & Eca & Dca & Sca).
  apply as_opt_str_field in Hpk as (pk & Epk & Dpk & Spk).
  unfold WireGuardInterface_init. simpl.
  rewrite bind_kwargs_ok.
  - simpl. rewrite Hn. simpl.
    rewrite Edn, Esub, Eep, Edns, Eport, Eca, Epk. simpl.
    eexists. split; [reflexivity|].
    unfold interface_with_defaults, WyronGrpcClient._parse_interface. simpl.
    split.
    + now rewrite Ddn, Dsub, Dep, Ddns, Dport, Dca, Dpk.
    + intros L.
      now rewrite (Sdn L), (Ssub L), (Sep L), (Sdns L), (Sport L), (Sca L),
        (Spk L).
  - exact Hk.
  - intros f [<-|[]]. eapply dict_get_In; eassumption.
Qed.

Lemma parse_interfaces_represented (js : list pyval)
  (ms : list server_pb2.Interface.t) :
  Forall2 (represents_interface lax) js ms ->
  exists rs,
    rmap WireGuardInterface_init js = Ok rs /\
    map interface_with_defaults rs =
      map WyronGrpcClient._parse_interface ms /\
    (lax = false -> rs = map WyronGrpcClient._parse_interface ms).
Proof.
  induction 1 as [|j m js ms Hjm _ (rs & Ers & Drs & Srs)]; simpl.
  - exists []. auto.
  - apply parse_interface_represented in Hjm as (r & Er & Dr & Sr).
    rewrite Er, Ers. simpl. exists (r :: rs). split; [reflexivity|].
    split.
    + simpl. now rewrite Dr, Drs.
    + intros L. now rewrite (Sr L), (Srs L).
Qed.

Lemma parse_server_represented (d : dict) (m : server_pb2.Server.t) :
  represents_server lax d m ->
  exists s,
    WyronClient._parse_server d = Ok s /\
    server_with_defaults s = WyronGrpcClient._parse_server m /\
    (lax = false -> s = WyronGrpcClient._parse_server m).
Proof.
  intros (Hk & Hn & Ha & Hu & Hdn & Hca & js & Hjs & Hf).
  apply parse_interfaces_represented in Hf as (rs & Ers & Drs & Srs).
  apply as_opt_str_field in Hdn as (dn & Edn & Ddn & Sdn).
  apply as_opt_int_field in Hca as (ca & Eca & Dca & Sca).
  assert (Ei : (items <- py_iter match dict_get d "interfaces" with
                                  | Some v => v
                                  | None => PList []
                                  end ;;
                rmap WireGuardInterface_init items)%result = Ok rs).
  { destruct Hjs as [-> | [-> ->]]; simpl; exact Ers. }
  unfold WyronClient._parse_server.
  destruct (py_iter _) as [items| |]; simpl in Ei; try discriminate.
  simpl. rewrite Ei. simpl.
  unfold Server_init. rewrite bind_kwargs_ok.
  - simpl. rewrite Hn, Ha, Hu. simpl. rewrite Edn, Eca. simpl.
    eexists. split; [reflexivity|].
    unfold server_with_defaults, WyronGrpcClient._parse_server. simpl.
    split.
    + now rewrite Ddn, Dca, Drs.
    + intros L. now rewrite (Sdn L), (Sca L), (Srs L).
  - intros k Hin. apply keys_set_In in Hin as [Hin | ->]; auto.
    simpl; auto 10.
  - intros f [<-|[<-|[<-|[]]]]; apply keys_set_In; left;
      eapply dict_get_In; eassumption.
Qed.

End SameState.

Lemma bare_json_represents : represents_server true bare_json bare_message.
Proof.
  repeat split; try (now left).
  - intros k [<-|[<-|[<-|[]]]]; simpl; auto 10.
  - right. repeat split. now left.
  - right. repeat split. now left.
  - exists []. split; [right; split; reflexivity | constructor].
Qed.

(** C5, as stated, does not hold: a server without a display name and with
    no creation time is the JSON object [bare_json] and the message
    [bare_message]; the REST parser gives [None] for both fields, the gRPC
    parser the protobuf defaults, and no message at all parses to the record
    the REST parser gives. *)
Lemma parse_server_transports_differ :
  represents_server true bare_json bare_message /\
  WyronClient._parse_server bare_json =
    Ok (Server.mk "srv1" "203.0.113.7" "admin" None None []) /\
  WyronGrpcClient._parse_server bare_message =
    Server.mk "srv1" "203.0.113.7" "admin" (Some "") (Some 0) [] /\
  forall m, WyronClient._parse_server bare_json <>
            Ok (WyronGrpcClient._parse_server m).
Proof.
  split; [exact bare_json_represents|].
  split; [reflexivity|]. split; [reflexivity|].
  intros m. simpl. unfold WyronGrpcClient._parse_server. discriminate.
Qed.

(** C5, amended. When the JSON object states every field of the server and
    of its interfaces, the REST parser and the gRPC parser give the same
    record, interfaces in the same order.  When the JSON object leaves an
    optional field out where the message holds the protobuf default, the
    two records differ in that field only: [None] from REST, the default
    from gRPC. *)
Theorem parse_server_transports_agree (d : dict) (m : server_pb2.Server.t) :
  (represents_server false d m ->
   WyronClient._parse_server d = Ok (WyronGrpcClient._parse_server m))
  /\
  (represents_server true d m ->
   exists s,
     WyronClient._parse_server d = Ok s /\
     server_with_defaults s = WyronGrpcClient._parse_server m).
Proof.
  split; intros H.
  - destruct (parse_server_represented false d m H) as (s & Es & _ & Ss).
    now rewrite Es, Ss.
  - destruct (parse_server_represented true d m H) as (s & Es & Ds & _).
    now exists s.
Qed.

Lemma full_json_represents : represents_server false full_json full_message.
Proof.
  repeat split; try (now left).
  - intros k [<-|[<-|[<-|[<-|[<-|[<-|[]]]]]]]; simpl; auto 10.
  - exists [wg0_json]. split; [now left|].
    constructor; [|constructor].
    exists [("name", PStr "wg0"); ("display_name", PStr "office");
            ("subnet", PStr "10.0.0.0/24");
            ("endpoint", PStr "vpn.example.com");
            ("dns", PStr "1.1.1.1"); ("port", PInt 51820);
            ("created_at", PInt 1700000000); ("public_key", PStr "PUB")].
    repeat split; try (now left).
    intros k [<-|[<-|[<-|[<-|[<-|[<-|[<-|[<-|[]]]]]]]]]; simpl; auto 10.
Qed.

Lemma parse_server_transports_agree_witness :
  WyronClient._parse_server full_json =
  Ok (WyronGrpcClient._parse_server full_message).
Proof.
  apply (proj1 (parse_server_transports_agree full_json full_message)).
  exact full_json_represents.
Defined.

(** ** The REST client: login and the retry after a 401 *)

Section Rest.

Variable World : Type.
Variable send : WyronClient.http_request -> World -> WyronClient.delivery * World.
Variable is_error : Z -> bool.

Local Abbreviation state := (WyronClient.state World).
Local Abbreviation login := (WyronClient.login World send is_error).
Local Abbreviation _request := (WyronClient._request World send is_error).

Ltac run :=
  unfold WyronClient._request, WyronClient.login,
    WyronClient.session_request, WyronClient.session_post,
    WyronClient.deliver, WyronClient.raise_for_status,
    WyronClient.response_json, WyronClient.get_self, WyronClient.put_token,
    bind, ret, raise, lift, untyped, login_request, request_of, sent,
    outcome_of in *;
  simpl in *.

(** [login] posts once, whatever comes of it. *)
Lemma login_posts_once (st st' : state) (out : result unit) :
  login st = (out, st') ->
  WyronClient.trace st' =
  app (WyronClient.trace st)
    [WyronClient.SessionPost (login_request (WyronClient.self st))].
Proof.
  run.
  destruct (send _ (WyronClient.world st)) as [[resp|e] w]; simpl.
  - destruct (is_error (WyronClient.status_code resp)); simpl;
      [now intros [= _ <-]|].
    destruct (WyronClient.content resp) as [body|]; simpl;
      [|now intros [= _ <-]].
    destruct (py_get body "token") as [tok| |]; simpl;
      try now intros [= _ <-].
    destruct (truthy tok); simpl; [|now intros [= _ <-]].
    destruct tok; simpl; now intros [= _ <-].
  - now intros [= _ <-].
Qed.

(** [login] changes nothing of the client but its token. *)
Lemma login_keeps_identity (st st' : state) (out : result unit) :
  login st = (out, st') ->
  WyronClient.base_url (WyronClient.self st') =
    WyronClient.base_url (WyronClient.self st) /\
  WyronClient.username (WyronClient.self st') =
    WyronClient.username (WyronClient.self st) /\
  WyronClient.password (WyronClient.self st') =
    WyronClient.password (WyronClient.self st) /\
  WyronClient.timeout (WyronClient.self st') =
    WyronClient.timeout (WyronClient.self st).
Proof.
  run.
  destruct (send _ (WyronClient.world st)) as [[resp|e] w]; simpl.
  - destruct (is_error (WyronClient.status_code resp)); simpl;
      [now intros [= _ <-]|].
    destruct (WyronClient.content resp) as [body|]; simpl;
      [|now intros [= _ <-]].
    destruct (py_get body "token") as [tok| |]; simpl;
      try now intros [= _ <-].
    destruct (truthy tok); simpl; [|now intros [= _ <-]].
    destruct tok; simpl; now intros [= _ <-].
  - now intros [= _ <-].
Qed.

(** A reply that carries a token: the token is stored. *)
Lemma login_stores_token (st : state) (resp : WyronClient.Response)
  (w : World) (body : dict) (tok : string) :
  send (login_request (WyronClient.self st)) (WyronClient.world st) =
    (WyronClient.Delivered resp, w) ->
  is_error (WyronClient.status_code resp) = false ->
  WyronClient.content resp = Some (PDict body) ->
  dict_get body "token" = Some (PStr tok) ->
  tok <> "" ->
  exists st',
    login st = (Ok tt, st') /\
    WyronClient.token (WyronClient.self st') = Some tok /\
    WyronClient.world st' = w.
Proof.
  intros Hs He Hc Ht Hne. run. rewrite Hs. simpl. rewrite He. simpl.
  rewrite Hc. simpl. rewrite Ht. simpl.
  apply String.eqb_neq in Hne. rewrite Hne. simpl.
  eexists. repeat split.
Qed.

(** A reply without a token (no such key, [null] or the empty string):
    [login] raises and the stored token stays as it was. *)
Lemma login_rejects_missing_token (st : state) (resp : WyronClient.Response)
  (w : World) (body : dict) :
  send (login_request (WyronClient.self st)) (WyronClient.world st) =
    (WyronClient.Delivered resp, w) ->
  is_error (WyronClient.status_code resp) = false ->
  WyronClient.content resp = Some (PDict body) ->
  dict_get body "token" = None \/
  dict_get body "token" = Some PNone \/
  dict_get body "token" = Some (PStr "") ->
  exists st',
    login st =
      (Raise (Exception "Login failed: token missing in response"), st') /\
    WyronClient.self st' = WyronClient.self st.
Proof.
  intros Hs He Hc Ht. run. rewrite Hs. simpl. rewrite He. simpl.
  rewrite Hc. simpl.
  destruct Ht as [-> | [-> | ->]]; simpl; eexists; split; reflexivity.
Qed.

(** The call fails in the transport: nothing more is sent. *)
Lemma request_transport_failure (st : state) (method path : string)
  (kw : WyronClient.kwargs) (e : exn) (w : World) :
  send (request_of (WyronClient.self st) method path kw)
    (WyronClient.world st) = (WyronClient.Failed e, w) ->
  _request method path kw st =
  (Raise e,
   sent st (WyronClient.SessionRequest
              (request_of (WyronClient.self st) method path kw)) w).
Proof. intros Hs. run. now rewrite Hs. Qed.

(** The call is answered with anything but 401: nothing more is sent. *)
Lemma request_no_retry (st : state) (method path : string)
  (kw : WyronClient.kwargs) (resp : WyronClient.Response) (w : World) :
  send (request_of (WyronClient.self st) method path kw)
    (WyronClient.world st) = (WyronClient.Delivered resp, w) ->
  WyronClient.status_code resp <> 401 ->
  _request method path kw st =
  (outcome_of is_error resp,
   sent st (WyronClient.SessionRequest
              (request_of (WyronClient.self st) method path kw)) w).
Proof.
  intros Hs Hn. run. rewrite Hs. simpl.
  apply Z.eqb_neq in Hn. rewrite Hn. simpl.
  destruct (is_error (WyronClient.status_code resp)); simpl; [reflexivity|].
  now destruct (WyronClient.content resp).
Qed.

(** The call is answered with 401 and the login that follows fails: the
    failure of the login is the outcome and the call is not sent again. *)
Lemma request_relogin_fails (st st2 : state) (method path : string)
  (kw : WyronClient.kwargs) (resp : WyronClient.Response) (w : World)
  (e : exn) :
  send (request_of (WyronClient.self st) method path kw)
    (WyronClient.world st) = (WyronClient.Delivered resp, w) ->
  WyronClient.status_code resp = 401 ->
  login (sent st (WyronClient.SessionRequest
                    (request_of (WyronClient.self st) method path kw)) w)
  = (Raise e, st2) ->
  _request method path kw st = (Raise e, st2) /\
  WyronClient.trace st2 =
  app (WyronClient.trace st)
    [WyronClient.SessionRequest
       (request_of (WyronClient.self st) method path kw);
     WyronClient.SessionPost (login_request (WyronClient.self st))].
Proof.
  intros Hs H401 Hl. split.
  - unfold WyronClient._request, bind at 1, WyronClient.get_self. simpl.
    unfold bind at 1, WyronClient.session_request, WyronClient.deliver.
    unfold request_of in Hs. rewrite Hs. simpl.
    apply Z.eqb_eq in H401. rewrite H401.
    unfold bind at 1. unfold bind at 1.
    unfold sent, request_of in Hl. rewrite Hl. reflexivity.
  - apply login_posts_once in Hl. rewrite Hl. unfold sent. simpl.
    now rewrite <- app_assoc.
Qed.

(** The call is answered with 401 and the login that follows succeeds: the
    call is sent once more, with the headers of the new token, and what comes
    back is final. *)
Lemma request_retries_once (st st2 : state) (method path : string)
  (kw : WyronClient.kwargs) (resp : WyronClient.Response) (w w' : World)
  (d : WyronClient.delivery) :
  send (request_of (WyronClient.self st) method path kw)
    (WyronClient.world st) = (WyronClient.Delivered resp, w) ->
  WyronClient.status_code resp = 401 ->
  login (sent st (WyronClient.SessionRequest
                    (request_of (WyronClient.self st) method path kw)) w)
  = (Ok tt, st2) ->
  send (request_of (WyronClient.self st2) method path kw)
    (WyronClient.world st2) = (d, w') ->
  _request method path kw st =
  (match d with
   | WyronClient.Failed e => Raise e
   | WyronClient.Delivered resp2 => outcome_of is_error resp2
   end,
   sent st2 (WyronClient.SessionRequest
               (request_of (WyronClient.self st2) method path kw)) w') /\
  WyronClient.trace st2 =
  app (WyronClient.trace st)
    [WyronClient.SessionRequest
       (request_of (WyronClient.self st) method path kw);
     WyronClient.SessionPost (login_request (WyronClient.self st))] /\
  WyronClient.base_url (WyronClient.self st2) =
  WyronClient.base_url (WyronClient.self st).
Proof.
  intros Hs H401 Hl Hs2.
  destruct (login_keeps_identity _ _ _ Hl) as (Hb & _ & _ & _).
  simpl in Hb. split; [|split; [|exact Hb]].
  - unfold WyronClient._request, bind at 1, WyronClient.get_self. simpl.
    unfold bind at 1, WyronClient.session_request, WyronClient.deliver.
    unfold request_of in Hs. rewrite Hs. simpl.
    apply Z.eqb_eq in H401. rewrite H401.
    unfold bind at 1. unfold bind at 1.
    unfold sent, request_of in Hl. rewrite Hl.
    unfold bind at 1. simpl.
    unfold request_of in Hs2. rewrite Hb in Hs2. rewrite Hs2.
    unfold sent, request_of. rewrite Hb.
    destruct d as [resp2|e]; simpl; [|reflexivity].
    unfold bind, WyronClient.raise_for_status, WyronClient.response_json,
      outcome_of, raise, ret.
    destruct (is_error (WyronClient.status_code resp2)); simpl;
      [reflexivity|].
    now destruct (WyronClient.content resp2).
  - apply login_posts_once in Hl. rewrite Hl. unfold sent. simpl.
    now rewrite <- app_assoc.
Qed.

End Rest.

(** ** The gRPC client: login and the retry after UNAUTHENTICATED *)

Section Grpc.

Variable World : Type.
Variable auth_Login :
  WyronGrpcClient.stub World auth_pb2.LoginRequest auth_pb2.LoginResponse.

Local Abbreviation state := (WyronGrpcClient.state World).
Local Abbreviation login := (WyronGrpcClient.login World auth_Login).
Local Abbreviation _call := (WyronGrpcClient._call World auth_Login).

(** [login] stores whatever token the reply carries. *)
Lemma grpc_login_ok (st : state) (resp : auth_pb2.LoginResponse) (w : World) :
  auth_Login (login_message (WyronGrpcClient.self st)) None
    (WyronGrpcClient.timeout (WyronGrpcClient.self st))
    (WyronGrpcClient.world st) = (Ok resp, w) ->
  login st =
  (Ok tt,
   {| WyronGrpcClient.self :=
        WyronGrpcClient.set_token (WyronGrpcClient.self st)
          (Some (auth_pb2.token resp));
      WyronGrpcClient.world := w;
      WyronGrpcClient.trace :=
        app (WyronGrpcClient.trace st)
          [login_event (WyronGrpcClient.self st)] |}).
Proof.
  intros H.
  unfold WyronGrpcClient.login, bind, WyronGrpcClient.get_self,
    WyronGrpcClient.invoke, WyronGrpcClient.put_token. simpl.
  unfold login_message in H. now rewrite H.
Qed.

(** [login] invokes the Login method once, whatever comes of it, and leaves
    the timeout of the client alone. *)
Lemma grpc_login_invokes_once (st st' : state) (out : result unit) :
  login st = (out, st') ->
  WyronGrpcClient.trace st' =
    app (WyronGrpcClient.trace st) [login_event (WyronGrpcClient.self st)].
Proof.
  unfold WyronGrpcClient.login, bind, WyronGrpcClient.get_self,
    WyronGrpcClient.invoke, WyronGrpcClient.put_token. simpl.
  destruct (auth_Login _ _ _ _) as [[resp|e|f] w]; simpl;
    now intros [= _ <-].
Qed.

Section Call.

Variables Req Resp : Type.
Variable func : WyronGrpcClient.stub World Req Resp.
Variable request : Req.
Variable st : state.

Let md := Some (WyronGrpcClient._metadata (WyronGrpcClient.self st)).
Let tmo := WyronGrpcClient.timeout (WyronGrpcClient.self st).

Ltac first_call H :=
  unfold WyronGrpcClient._call, bind at 1, WyronGrpcClient.get_self; simpl;
  unfold WyronGrpcClient.try_except_RpcError, WyronGrpcClient.invoke;
  simpl; unfold md, tmo in H; rewrite H; simpl.

(** The call succeeds: its reply is the result. *)
Lemma call_ok (resp : Resp) (w : World) :
  func request md tmo (WyronGrpcClient.world st) = (Ok resp, w) ->
  _call func request st =
  (Ok resp, invoked st (call_event (WyronGrpcClient.self st)) w).
Proof. intros H. first_call H. reflexivity. Qed.

(** The call fails with anything but UNAUTHENTICATED: the failure is the
    outcome and nothing more is invoked. *)
Lemma call_no_retry (e : exn) (w : World) :
  func request md tmo (WyronGrpcClient.world st) = (Raise e, w) ->
  e <> RpcError UNAUTHENTICATED ->
  _call func request st =
  (Raise e, invoked st (call_event (WyronGrpcClient.self st)) w).
Proof.
  intros H Hne. first_call H.
  destruct e as [ | | | | | | | | |code]; try reflexivity.
  destruct code; try reflexivity. now contradiction Hne.
Qed.

(** UNAUTHENTICATED and the login that follows fails: the failure of the
    login is the outcome and the call is not invoked again. *)
Lemma call_relogin_fails (w : World) (e : exn) (st2 : state) :
  func request md tmo (WyronGrpcClient.world st) =
    (Raise (RpcError UNAUTHENTICATED), w) ->
  login (invoked st (call_event (WyronGrpcClient.self st)) w) =
    (Raise e, st2) ->
  _call func request st = (Raise e, st2) /\
  WyronGrpcClient.trace st2 =
    app (WyronGrpcClient.trace st)
      [call_event (WyronGrpcClient.self st);
       login_event (WyronGrpcClient.self st)].
Proof.
  intros H Hl. split.
  - first_call H. unfold bind at 1.
    unfold invoked, call_event in Hl. now rewrite Hl.
  - apply grpc_login_invokes_once in Hl. rewrite Hl. unfold invoked. simpl.
    now rewrite <- app_assoc.
Qed.

(** UNAUTHENTICATED and the login that follows succeeds: the call is invoked
    once more, with the metadata of the new token, and its outcome is
    final. *)
Lemma call_retries_once (w w' : World) (st2 : state) (out : result Resp) :
  func request md tmo (WyronGrpcClient.world st) =
    (Raise (RpcError UNAUTHENTICATED), w) ->
  login (invoked st (call_event (WyronGrpcClient.self st)) w) =
    (Ok tt, st2) ->
  func request (Some (WyronGrpcClient._metadata (WyronGrpcClient.self st2)))
    (WyronGrpcClient.timeout (WyronGrpcClient.self st2))
    (WyronGrpcClient.world st2) = (out, w') ->
  _call func request st =
    (out, invoked st2 (call_event (WyronGrpcClient.self st2)) w') /\
  WyronGrpcClient.trace st2 =
    app (WyronGrpcClient.trace st)
      [call_event (WyronGrpcClient.self st);
       login_event (WyronGrpcClient.self st)].
Proof.
  intros H Hl H2. split.
  - first_call H. unfold bind at 1.
    unfold invoked, call_event in Hl. rewrite Hl.
    unfold bind at 1, WyronGrpcClient.get_self. simpl.
    now rewrite H2.
  - apply grpc_login_invokes_once in Hl. rewrite Hl. unfold invoked. simpl.
    now rewrite <- app_assoc.
Qed.

End Call.

End Grpc.

(** ** The retry policy *)

Lemma outcome_of_401 (is_error : Z -> bool) (r : WyronClient.Response) :
  is_error 401 = true ->
  WyronClient.status_code r = 401 ->
  outcome_of is_error r = Raise (HTTPStatusError 401).
Proof. intros H E. unfold outcome_of. now rewrite E, H. Qed.

(** C3, as stated, does not hold on either transport: the call is refused
    for authentication, the login that follows is refused too, and the call
    is not sent a second time. *)
Lemma relogin_failure_skips_retry :
  ~ (forall (World : Type) send is_error (st : WyronClient.state World)
       method path kw resp w,
       is_error 401 = true ->
       send (request_of (WyronClient.self st) method path kw)
         (WyronClient.world st) = (WyronClient.Delivered resp, w) ->
       WyronClient.status_code resp = 401 ->
       let st' :=
         snd (WyronClient._request World send is_error method path kw st) in
       logins_sent (WyronClient.trace st') =
         (logins_sent (WyronClient.trace st) + 1)%nat /\
       requests_sent (WyronClient.trace st') =
         (requests_sent (WyronClient.trace st) + 2)%nat)
  /\
  ~ (forall (World : Type) auth_Login (Req Resp : Type)
       (func : WyronGrpcClient.stub World Req Resp) request
       (st : WyronGrpcClient.state World) w,
       func request
         (Some (WyronGrpcClient._metadata (WyronGrpcClient.self st)))
         (WyronGrpcClient.timeout (WyronGrpcClient.self st))
         (WyronGrpcClient.world st) = (Raise (RpcError UNAUTHENTICATED), w) ->
       let st' :=
         snd (WyronGrpcClient._call World auth_Login func request st) in
       login_invocations (WyronGrpcClient.trace st') =
         (login_invocations (WyronGrpcClient.trace st) + 1)%nat /\
       invocations (WyronGrpcClient.trace st') =
         (invocations (WyronGrpcClient.trace st) + 2)%nat).
Proof.
  split; intros H.
  - specialize (H (list WyronClient.delivery) scripted is_error_4xx_5xx
                  (rest_state (Some "stale")
                     [answer 401 (PDict []); answer 401 (PDict [])])
                  "GET" "/servers" WyronClient.no_kwargs
                  {| WyronClient.status_code := 401;
                     WyronClient.content := Some (PDict []) |}
                  [answer 401 (PDict [])]
                  eq_refl eq_refl eq_refl).
    destruct H as [_ H]. vm_compute in H. discriminate.
  - specialize (H (list (result pyval)) scripted_Login pyval pyval
                  scripted_method PNone
                  (grpc_state (Some "stale")
                     [Raise (RpcError UNAUTHENTICATED);
                      Raise (RpcError UNAUTHENTICATED)])
                  [Raise (RpcError UNAUTHENTICATED)]
                  eq_refl).
    destruct H as [_ H]. vm_compute in H. discriminate.
Qed.

(** C3, amended. On both transports a call goes out once.  A failure other
    than an authentication failure (a transport failure, another status) is
    the outcome as it is, with no login and no second attempt.  On an
    authentication failure (HTTP 401, gRPC UNAUTHENTICATED) [login] runs
    once; when it returns, the call goes out once more with the new token and
    what comes back is final, a second authentication failure included; when
    the login fails, its failure is the outcome and the call is not sent
    again. *)
Theorem auth_failure_retry_policy :
  (forall (World : Type) send is_error (st : WyronClient.state World)
     method path kw,
     is_error 401 = true ->
     let request := request_of (WyronClient.self st) method path kw in
     let _request := WyronClient._request World send is_error in
     let sent1 := fun w => sent st (WyronClient.SessionRequest request) w in
     (forall e w,
        send request (WyronClient.world st) = (WyronClient.Failed e, w) ->
        _request method path kw st = (Raise e, sent1 w))
     /\
     (forall resp w,
        send request (WyronClient.world st) = (WyronClient.Delivered resp, w) ->
        WyronClient.status_code resp <> 401 ->
        _request method path kw st = (outcome_of is_error resp, sent1 w))
     /\
     (forall resp w e st2,
        send request (WyronClient.world st) = (WyronClient.Delivered resp, w) ->
        WyronClient.status_code resp = 401 ->
        WyronClient.login World send is_error (sent1 w) = (Raise e, st2) ->
        _request method path kw st = (Raise e, st2) /\
        WyronClient.trace st2 =
          app (WyronClient.trace st)
            [WyronClient.SessionRequest request;
             WyronClient.SessionPost (login_request (WyronClient.self st))])
     /\
     (forall resp w st2 d w',
        send request (WyronClient.world st) = (WyronClient.Delivered resp, w) ->
        WyronClient.status_code resp = 401 ->
        WyronClient.login World send is_error (sent1 w) = (Ok tt, st2) ->
        let again := request_of (WyronClient.self st2) method path kw in
        send again (WyronClient.world st2) = (d, w') ->
        exists out st3,
          _request method path kw st = (out, st3) /\
          WyronClient.trace st3 =
            app (WyronClient.trace st)
              [WyronClient.SessionRequest request;
               WyronClient.SessionPost (login_request (WyronClient.self st));
               WyronClient.SessionRequest again] /\
          WyronClient.req_url again = WyronClient.req_url request /\
          match d with
          | WyronClient.Failed e => out = Raise e
          | WyronClient.Delivered resp2 =>
              out = outcome_of is_error resp2 /\
              (WyronClient.status_code resp2 = 401 ->
               out = Raise (HTTPStatusError 401))
          end))
  /\
  (forall (World : Type) auth_Login (Req Resp : Type)
     (func : WyronGrpcClient.stub World Req Resp) (request : Req)
     (st : WyronGrpcClient.state World),
     let self := WyronGrpcClient.self st in
     let login := WyronGrpcClient.login World auth_Login in
     let _call := WyronGrpcClient._call World auth_Login func request in
     let first :=
       func request (Some (WyronGrpcClient._metadata self))
         (WyronGrpcClient.timeout self) (WyronGrpcClient.world st) in
     let invoked1 := fun w => invoked st (call_event self) w in
     (forall resp w,
        first = (Ok resp, w) -> _call st = (Ok resp, invoked1 w))
     /\
     (forall e w,
        first = (Raise e, w) ->
        e <> RpcError UNAUTHENTICATED ->
        _call st = (Raise e, invoked1 w))
     /\
     (forall w e st2,
        first = (Raise (RpcError UNAUTHENTICATED), w) ->
        login (invoked1 w) = (Raise e, st2) ->
        _call st = (Raise e, st2) /\
        WyronGrpcClient.trace st2 =
          app (WyronGrpcClient.trace st) [call_event self; login_event self])
     /\
     (forall w st2 out w',
        first = (Raise (RpcError UNAUTHENTICATED), w) ->
        login (invoked1 w) = (Ok tt, st2) ->
        let self2 := WyronGrpcClient.self st2 in
        func request (Some (WyronGrpcClient._metadata self2))
          (WyronGrpcClient.timeout self2) (WyronGrpcClient.world st2)
        = (out, w') ->
        _call st = (out, invoked st2 (call_event self2) w') /\
        WyronGrpcClient.trace (invoked st2 (call_event self2) w') =
          app (WyronGrpcClient.trace st)
            [call_event self; login_event self; call_event self2])).
Proof.
  split.
  - intros World send is_error st method path kw H401 request _request sent1.
    split; [|split; [|split]].
    + intros e w Hs. now apply request_transport_failure.
    + intros resp w Hs Hn. now apply request_no_retry.
    + intros resp w e st2 Hs E Hl.
      now apply (request_relogin_fails World send is_error st st2 method path
                   kw resp w e).
    + intros resp w st2 d w' Hs E Hl again Hs2.
      destruct (request_retries_once World send is_error st st2 method path
                  kw resp w w' d Hs E Hl Hs2) as (Hr & Ht & Hb).
      eexists. eexists. split; [exact Hr|].
      split; [|split].
      * unfold sent. simpl. rewrite Ht. now rewrite <- app_assoc.
      * unfold again, request, request_of. simpl. now rewrite Hb.
      * destruct d as [resp2|e]; [|reflexivity].
        split; [reflexivity|]. intros E2. now apply outcome_of_401.
  - intros World auth_Login Req Resp func request st self login _call first
      invoked1.
    split; [|split; [|split]].
    + intros resp w Hf. now apply call_ok.
    + intros e w Hf Hne. now apply call_no_retry.
    + intros w e st2 Hf Hl.
      now apply (call_relogin_fails World auth_Login Req Resp func request st
                   w e st2).
    + intros w st2 out w' Hf Hl self2 H2.
      destruct (call_retries_once World auth_Login Req Resp func request st
                  w w' st2 out Hf Hl H2) as (Hr & Ht).
      split; [exact Hr|].
      unfold invoked. simpl. rewrite Ht. now rewrite <- app_assoc.
Qed.

Lemma auth_failure_retry_policy_witness :
  exists out st3,
    WyronClient._request (list WyronClient.delivery) scripted
      is_error_4xx_5xx "GET" "/servers" WyronClient.no_kwargs
      (rest_state (Some "stale") expired_session) = (out, st3) /\
    out = Ok (PDict [("data", PList [])]) /\
    WyronClient.token (WyronClient.self st3) = Some "fresh" /\
    logins_sent (WyronClient.trace st3) = 1%nat /\
    requests_sent (WyronClient.trace st3) = 2%nat.
Proof.
  edestruct (proj2 (proj2 (proj2
               (proj1 auth_failure_retry_policy
                  (list WyronClient.delivery) scripted is_error_4xx_5xx
                  (rest_state (Some "stale") expired_session)
                  "GET" "/servers" WyronClient.no_kwargs eq_refl))))
    as (out & st3 & Hr & Ht & _ & Hout).
  - reflexivity.
  - reflexivity.
  - reflexivity.
  - reflexivity.
  - exists out, st3. clear Ht Hout.
    assert (Hc := Hr). vm_compute in Hc. injection Hc as <- <-.
    split; [exact Hr | repeat split].
Defined.

(** ** Login *)

(** REST [login]: the token of the reply is stored, and a reply without a
    token raises and leaves the stored token alone. *)
Lemma rest_login_token_or_error (World : Type)
  (send : WyronClient.http_request -> World -> WyronClient.delivery * World)
  (is_error : Z -> bool) (st : WyronClient.state World)
  (resp : WyronClient.Response) (w : World) (body : dict) :
  send (login_request (WyronClient.self st)) (WyronClient.world st) =
    (WyronClient.Delivered resp, w) ->
  is_error (WyronClient.status_code resp) = false ->
  WyronClient.content resp = Some (PDict body) ->
  (forall tok,
     dict_get body "token" = Some (PStr tok) -> tok <> "" ->
     exists st',
       WyronClient.login World send is_error st = (Ok tt, st') /\
       WyronClient.token (WyronClient.self st') = Some tok)
  /\
  (dict_get body "token" = None \/
   dict_get body "token" = Some PNone \/
   dict_get body "token" = Some (PStr "") ->
   exists st',
     WyronClient.login World send is_error st =
       (Raise (Exception "Login failed: token missing in response"), st') /\
     WyronClient.self st' = WyronClient.self st).
Proof.
  intros Hs He Hc. split.
  - intros tok Ht Hne.
    destruct (login_stores_token World send is_error st resp w body tok
                Hs He Hc Ht Hne) as (st' & Hl & Htok & _).
    now exists st'.
  - intros Ht.
    now apply (login_rejects_missing_token World send is_error st resp w body).
Qed.

(** C4 at the input where the gRPC client departs from it: the Login reply
    carries no token (the field reads as the empty string), and [login]
    returns normally with the empty string stored as the token, where the
    REST client raises. *)
Theorem grpc_login_stores_empty_token (World : Type)
  (auth_Login :
     WyronGrpcClient.stub World auth_pb2.LoginRequest auth_pb2.LoginResponse)
  (st : WyronGrpcClient.state World) (w : World) :
  auth_Login (login_message (WyronGrpcClient.self st)) None
    (WyronGrpcClient.timeout (WyronGrpcClient.self st))
    (WyronGrpcClient.world st) = (Ok {| auth_pb2.token := "" |}, w) ->
  exists st',
    WyronGrpcClient.login World auth_Login st = (Ok tt, st') /\
    WyronGrpcClient.token (WyronGrpcClient.self st') = Some "" /\
    WyronGrpcClient._metadata (WyronGrpcClient.self st') = [].
Proof.
  intros H. rewrite (grpc_login_ok World auth_Login st _ w H).
  eexists. repeat split.
Qed.

Lemma grpc_login_stores_empty_token_witness :
  exists st',
    WyronGrpcClient.login (list (result pyval)) scripted_Login
      (grpc_state None tokenless_login) = (Ok tt, st') /\
    WyronGrpcClient.token (WyronGrpcClient.self st') = Some "" /\
    WyronGrpcClient._metadata (WyronGrpcClient.self st') = [].
Proof.
  apply (grpc_login_stores_empty_token (list (result pyval)) scripted_Login
           (grpc_state None tokenless_login) []).
  reflexivity.
Defined.

(** ** Listing users *)

(** C8, as stated, does not hold: a caller who passes the empty string as
    [status] has supplied the filter, and neither client sends it. *)
Lemma list_users_omits_empty_filter :
  ~ (forall social_id status search limit skip sort order,
       dict_get
         (WyronClient.list_users_params social_id status search limit skip
            sort order) "status" = option_map PStr status)
  /\
  ~ (forall social_id status search limit skip sort order,
       dict_get
         (WyronGrpcClient.list_users_request social_id status search limit
            skip sort order) "status" = option_map PStr status).
Proof.
  split; intros H;
    specialize (H None (Some "") None 50 0 "created_at" "desc");
    discriminate.
Qed.

(** Every request [_request] sends for the call itself is the first one
    again, the headers apart. *)
Lemma request_first_event (World : Type)
  (send : WyronClient.http_request -> World -> WyronClient.delivery * World)
  (is_error : Z -> bool) (st : WyronClient.state World)
  (method path : string) (kw : WyronClient.kwargs) :
  exists later,
    WyronClient.trace
      (snd (WyronClient._request World send is_error method path kw st)) =
    app (WyronClient.trace st)
      (WyronClient.SessionRequest
         (request_of (WyronClient.self st) method path kw) :: later).
Proof.
  destruct (send (request_of (WyronClient.self st) method path kw)
              (WyronClient.world st)) as [[resp|e] w] eqn:Hs.
  - destruct (Z.eq_dec (WyronClient.status_code resp) 401) as [E|E].
    + destruct (WyronClient.login World send is_error
                  (sent st (WyronClient.SessionRequest
                      (request_of (WyronClient.self st) method path kw)) w))
        as [[[]|e|f] st2] eqn:Hl.
      * destruct (send (request_of (WyronClient.self st2) method path kw)
                    (WyronClient.world st2)) as [d w'] eqn:Hs2.
        destruct (request_retries_once World send is_error st st2 method
                    path kw resp w w' d Hs E Hl Hs2) as (Hr & Ht & _).
        rewrite Hr. simpl. rewrite Ht. rewrite <- app_assoc. simpl.
        eexists. reflexivity.
      * destruct (request_relogin_fails World send is_error st st2 method
                    path kw resp w e Hs E Hl) as (Hr & Ht).
        rewrite Hr. simpl. rewrite Ht. simpl. eexists. reflexivity.
      * exists [WyronClient.SessionPost
                  (login_request (WyronClient.self st))].
        apply login_posts_once in Hl as Ht.
        unfold WyronClient._request, bind at 1, WyronClient.get_self. simpl.
        unfold bind at 1, WyronClient.session_request, WyronClient.deliver.
        unfold request_of in Hs. rewrite Hs. simpl.
        apply Z.eqb_eq in E. rewrite E.
        unfold bind at 1. unfold bind at 1.
        unfold sent, request_of in Hl. rewrite Hl. simpl.
        rewrite Ht. unfold sent. simpl. now rewrite <- app_assoc.
    + rewrite (request_no_retry World send is_error st method path kw resp w
                 Hs E). simpl. eexists. reflexivity.
  - rewrite (request_transport_failure World send is_error st method path kw
               e w Hs). simpl. eexists. reflexivity.
Qed.

(** C8, amended. The request of [list_users] carries limit, skip, sort and
    order as they were passed, then social_id when it is not [None], then
    status and search when they are neither [None] nor empty, each with the
    value passed, and nothing else; this holds for the query parameters of
    the REST client, which are those of the request it sends, and for the
    message of the gRPC client. *)
Theorem list_users_request_fields (social_id : option Z)
  (status search : option string) (limit skip : Z) (sort order : string) :
  WyronClient.list_users_params social_id status search limit skip sort order
    = list_users_fields social_id status search limit skip sort order
  /\
  WyronGrpcClient.list_users_request social_id status search limit skip sort
    order
    = list_users_fields social_id status search limit skip sort order
  /\
  (forall (World : Type) send is_error (st : WyronClient.state World),
     exists later,
       WyronClient.trace
         (snd (WyronClient.list_users_data World send is_error social_id
                 status search limit skip sort order st)) =
       app (WyronClient.trace st)
         (WyronClient.SessionRequest
            (request_of (WyronClient.self st) "GET" "/users"
               {| WyronClient.json := None;
                  WyronClient.params :=
                    Some (list_users_fields social_id status search limit
                            skip sort order) |}) :: later)).
Proof.
  assert (E : WyronClient.list_users_params social_id status search limit
                skip sort order
              = list_users_fields social_id status search limit skip sort
                  order).
  { unfold WyronClient.list_users_params, list_users_fields.
    destruct social_id, status as [[|c s]|], search as [[|c' s']|];
      reflexivity. }
  split; [exact E|]. split.
  - unfold WyronGrpcClient.list_users_request, list_users_fields.
    destruct social_id, status as [[|c s]|], search as [[|c' s']|];
      reflexivity.
  - intros World send is_error st.
    unfold WyronClient.list_users_data. rewrite E.
    apply request_first_event.
Qed.

(** * Further properties *)

(** ** Logging in *)

Section RestLogin.

Variable World : Type.
Variable send : WyronClient.http_request -> World -> WyronClient.delivery * World.
Variable is_error : Z -> bool.

Local Abbreviation login := (WyronClient.login World send is_error).



End RestLogin.

Section GrpcLogin.

Variable World : Type.
Variable auth_Login :
  WyronGrpcClient.stub World auth_pb2.LoginRequest auth_pb2.LoginResponse.

Local Abbreviation login := (WyronGrpcClient.login World auth_Login).


(** X2. [WyronGrpcClient.login] invokes the Login method once, without
    metadata; when the method fails the client keeps the token it had, and
    when it answers, the token of the reply replaces it and a non-empty one
    becomes the [authorization] metadata of later calls. *)
Theorem grpc_login_outcome (st : WyronGrpcClient.state World) :
  let self := WyronGrpcClient.self st in
  let answer :=
    auth_Login (login_message self) None (WyronGrpcClient.timeout self)
      (WyronGrpcClient.world st) in
  WyronGrpcClient.trace (snd (login st)) =
    app (WyronGrpcClient.trace st) [login_event self] /\
  WyronGrpcClient.world (snd (login st)) = snd answer /\
  match fst answer with
  | Ok reply =>
      fst (login st) = Ok tt /\
      WyronGrpcClient.self (snd (login st)) =
        WyronGrpcClient.set_token self (Some (auth_pb2.token reply)) /\
      (auth_pb2.token reply <> "" ->
       WyronGrpcClient._metadata (WyronGrpcClient.self (snd (login st))) =
         [("authorization", "Bearer " ++ auth_pb2.token reply)])
  | Raise e =>
      fst (login st) = Raise e /\
      WyronGrpcClient.self (snd (login st)) = self
  | Untyped f =>
      fst (login st) = Untyped f /\
      WyronGrpcClient.self (snd (login st)) = self
  end.
Proof.
  intros self answer. unfold answer, self, login_message, login_event.
  unfold WyronGrpcClient.login, bind, WyronGrpcClient.get_self,
    WyronGrpcClient.invoke, WyronGrpcClient.put_token. simpl.
  destruct (auth_Login _ _ _ _) as [[reply|e|f] w]; simpl;
    repeat split.
  intros Hne. unfold WyronGrpcClient._metadata. simpl.
  apply String.eqb_neq in Hne. now rewrite Hne.
Qed.

End GrpcLogin.

(** ** One call, at most one retry *)

Section RestCall.

Variable World : Type.
Variable send : WyronClient.http_request -> World -> WyronClient.delivery * World.
Variable is_error : Z -> bool.

Local Abbreviation login := (WyronClient.login World send is_error).
Local Abbreviation _request := (WyronClient._request World send is_error).





End RestCall.

Section GrpcCall.

Variable World : Type.
Variable auth_Login :
  WyronGrpcClient.stub World auth_pb2.LoginRequest auth_pb2.LoginResponse.
Variables Req Resp : Type.
Variable func : WyronGrpcClient.stub World Req Resp.
Variable request : Req.

Local Abbreviation login := (WyronGrpcClient.login World auth_Login).
Local Abbreviation _call := (WyronGrpcClient._call World auth_Login).



End GrpcCall.

(** ** Building a REST client *)





(** ** What the REST parsers refuse *)

Lemma forallb_false_of {A : Type} (f : A -> bool) (l : list A) (x : A) :
  In x l -> f x = false -> forallb f l = false.
Proof.
  intros Hin Hf. destruct (forallb f l) eqn:E; [|reflexivity].
  rewrite forallb_forall in E. rewrite (E x Hin) in Hf. discriminate.
Qed.

Lemma mem_false (k : string) (l : list string) :
  ~ In k l -> mem k l = false.
Proof.
  intros H. destruct (mem k l) eqn:E; [|reflexivity].
  apply mem_In in E. contradiction.
Qed.

Lemma bind_kwargs_unknown (fields required kw : list string) (k : string) :
  In k kw -> ~ In k fields -> bind_kwargs fields required kw = Raise TypeError.
Proof.
  intros Hin Hk. unfold bind_kwargs.
  rewrite (forallb_false_of _ kw k Hin); [reflexivity|].
  now apply mem_false.
Qed.

Lemma bind_kwargs_missing (fields required kw : list string) (f : string) :
  In f required -> ~ In f kw -> bind_kwargs fields required kw = Raise TypeError.
Proof.
  intros Hin Hf. unfold bind_kwargs.
  rewrite (forallb_false_of _ required f Hin); [|now apply mem_false].
  now destruct (forallb _ kw).
Qed.

Lemma parse_server_reaches_init (s : dict) :
  interfaces_readable s ->
  exists ifs, WyronClient._parse_server s = Server_init s ifs.
Proof.
  unfold WyronClient._parse_server.
  intros [-> | (entries & ifs & -> & Hf)]; simpl.
  - now exists [].
  - apply rmap_Forall2 in Hf. rewrite Hf. simpl. now exists ifs.
Qed.

(** X7. [WyronClient._parse_server] is strict: a JSON server with
    ["interfaces": null] is a [TypeError], and so is, once the interfaces
    are read, a server with a key that is no field of [Server] or without
    one of [name], [address], [username]. *)
Theorem parse_server_refuses (s : dict) :
  (dict_get s "interfaces" = Some PNone ->
   WyronClient._parse_server s = Raise TypeError)
  /\
  (forall k,
     interfaces_readable s ->
     In k (dict_keys s) -> ~ In k server_fields ->
     WyronClient._parse_server s = Raise TypeError)
  /\
  (forall k,
     interfaces_readable s ->
     In k ["name"; "address"; "username"] -> ~ In k (dict_keys s) ->
     WyronClient._parse_server s = Raise TypeError).
Proof.
  split; [|split].
  - intros H. unfold WyronClient._parse_server. now rewrite H.
  - intros k Hr Hin Hk.
    destruct (parse_server_reaches_init s Hr) as (ifs & ->).
    unfold Server_init.
    rewrite (bind_kwargs_unknown _ _ _ k); [reflexivity | | exact Hk].
    apply keys_set_In. now left.
  - intros k Hr Hin Hk.
    destruct (parse_server_reaches_init s Hr) as (ifs & ->).
    unfold Server_init.
    rewrite (bind_kwargs_missing _ _ _ k); [reflexivity | exact Hin |].
    intros H. apply keys_set_In in H as [H | ->]; [contradiction|].
    simpl in Hin. intuition discriminate.
Qed.

Lemma parse_server_refuses_witness :
  WyronClient._parse_server null_interfaces_json = Raise TypeError /\
  WyronClient._parse_server extra_key_json = Raise TypeError /\
  WyronClient._parse_server nameless_json = Raise TypeError.
Proof.
  split; [|split].
  - apply (proj1 (parse_server_refuses null_interfaces_json)). reflexivity.
  - apply (proj1 (proj2 (parse_server_refuses extra_key_json)) "id").
    + now left.
    + simpl. auto.
    + simpl. intuition discriminate.
  - apply (proj2 (proj2 (parse_server_refuses nameless_json)) "name").
    + now left.
    + simpl. auto.
    + simpl. intuition discriminate.
Defined.

(** ** Servers over REST *)

Section RestServers.

Variable World : Type.
Variable send : WyronClient.http_request -> World -> WyronClient.delivery * World.
Variable is_error : Z -> bool.

Local Abbreviation _request := (WyronClient._request World send is_error).
Local Abbreviation list_servers := (WyronClient.list_servers World send is_error).
Local Abbreviation get_server := (WyronClient.get_server World send is_error).

(** X8. [WyronClient.list_servers] reads the servers under the key [data]
    of the reply: a reply without that key gives the empty list, not an
    error; a list of entries gives their servers in the same order, as many
    as there are entries; an entry that does not parse fails the whole
    listing with the error of the first such entry. *)
Theorem list_servers_reply (st st' : WyronClient.state World) (d : dict) :
  _request "GET" "/servers" WyronClient.no_kwargs st = (Ok (PDict d), st') ->
  (dict_get d "data" = None -> list_servers st = (Ok [], st'))
  /\
  (forall entries servers,
     dict_get d "data" = Some (PList entries) ->
     Forall2 (fun e s => WyronClient.parse_server_item e = Ok s)
       entries servers ->
     list_servers st = (Ok servers, st') /\
     length servers = length entries)
  /\
  (forall good servers bad rest e,
     dict_get d "data" = Some (PList (good ++ bad :: rest)%list) ->
     Forall2 (fun e s => WyronClient.parse_server_item e = Ok s)
       good servers ->
     WyronClient.parse_server_item bad = Raise e ->
     list_servers st = (Raise e, st')).
Proof.
  intros Hr. unfold WyronClient.list_servers, bind. rewrite Hr.
  unfold lift. simpl. split; [|split].
  - now intros ->.
  - intros entries servers -> Hf. simpl.
    split.
    + apply rmap_Forall2 in Hf. now rewrite Hf.
    + now apply Forall2_nth_error in Hf as (Hlen & _).
  - intros good servers bad rest e -> Hf Hbad. simpl.
    f_equal. clear Hr. induction Hf as [|x y l l' Hxy Hl IH]; simpl.
    + now rewrite Hbad.
    + rewrite Hxy. simpl. now rewrite IH.
Qed.

(** X9. [WyronClient.get_server] reads the server under the key [data] of
    the reply and, unlike the listing, needs the key: a reply without it is a
    [KeyError], a [null] under it an [AttributeError], and an object under it
    is parsed as the server. *)
Theorem get_server_reply (server_id : string)
  (st st' : WyronClient.state World) (d : dict) :
  _request "GET" ("/servers/" ++ server_id) WyronClient.no_kwargs st =
    (Ok (PDict d), st') ->
  (dict_get d "data" = None ->
   get_server server_id st = (Raise (KeyError "data"), st'))
  /\
  (dict_get d "data" = Some PNone ->
   get_server server_id st = (Raise AttributeError, st'))
  /\
  (forall s,
     dict_get d "data" = Some (PDict s) ->
     get_server server_id st = (WyronClient._parse_server s, st')).
Proof.
  intros Hr. unfold WyronClient.get_server, bind. rewrite Hr.
  unfold lift. simpl. split; [|split].
  - now intros ->.
  - now intros ->.
  - intros s ->. reflexivity.
Qed.

(** X10. [WyronClient.create_or_update_server] posts the payload to
    [/servers]; when the reply has no name (the key is missing, [null] or
    empty) it raises without asking for the server, and otherwise its outcome
    is that of [get_server] for the name of the reply. *)
Theorem create_or_update_server_steps (payload : dict)
  (st st1 : WyronClient.state World) (d : dict) :
  WyronClient.create_or_update_server_raw World send is_error payload st =
    (Ok (PDict d), st1) ->
  (exists later,
     WyronClient.trace st1 =
       app (WyronClient.trace st)
         (WyronClient.SessionRequest
            (request_of (WyronClient.self st) "POST" "/servers"
               {| WyronClient.json := Some (PDict payload);
                  WyronClient.params := None |}) :: later))
  /\
  (dict_get d "name" = None \/
   dict_get d "name" = Some PNone \/
   dict_get d "name" = Some (PStr "") ->
   WyronClient.create_or_update_server World send is_error payload st =
     (Raise (Exception "server create/update succeeded but 'name' missing"),
      st1))
  /\
  (forall n,
     dict_get d "name" = Some (PStr n) -> n <> "" ->
     WyronClient.create_or_update_server World send is_error payload st =
       get_server n st1).
Proof.
  intros Hr. split; [|split].
  - unfold WyronClient.create_or_update_server_raw in Hr.
    destruct (request_first_event World send is_error st "POST" "/servers"
                {| WyronClient.json := Some (PDict payload);
                   WyronClient.params := None |}) as (later & Ht).
    rewrite Hr in Ht. now exists later.
  - intros Hn. unfold WyronClient.create_or_update_server, bind.
    rewrite Hr. unfold lift. simpl.
    now destruct Hn as [-> | [-> | ->]].
  - intros n Hn Hne. unfold WyronClient.create_or_update_server, bind.
    rewrite Hr. unfold lift. simpl. rewrite Hn. simpl.
    apply String.eqb_neq in Hne. now rewrite Hne.
Qed.

End RestServers.

Lemma list_servers_reply_witness :
  fst (WyronClient.list_servers (list WyronClient.delivery) scripted
         is_error_4xx_5xx (rest_state (Some "tok") servers_reply)) =
    Ok [WyronGrpcClient._parse_server full_message;
        Server.mk "srv1" "203.0.113.7" "admin" None None []] /\
  fst (WyronClient.list_servers (list WyronClient.delivery) scripted
         is_error_4xx_5xx (rest_state (Some "tok") empty_reply)) = Ok [].
Proof.
  split.
  - edestruct (proj1 (proj2
                 (list_servers_reply (list WyronClient.delivery) scripted
                    is_error_4xx_5xx (rest_state (Some "tok") servers_reply)
                    _ _ eq_refl))) as [H _].
    + reflexivity.
    + constructor; [reflexivity|]. constructor; [reflexivity|]. constructor.
    + rewrite H. reflexivity.
  - rewrite (proj1 (list_servers_reply (list WyronClient.delivery) scripted
                      is_error_4xx_5xx (rest_state (Some "tok") empty_reply)
                      _ _ eq_refl)); reflexivity.
Defined.

Lemma get_server_reply_witness :
  fst (WyronClient.get_server (list WyronClient.delivery) scripted
         is_error_4xx_5xx "srv1" (rest_state (Some "tok") empty_reply)) =
    Raise (KeyError "data") /\
  fst (WyronClient.get_server (list WyronClient.delivery) scripted
         is_error_4xx_5xx "srv1" (rest_state (Some "tok") server_reply)) =
    Ok (Server.mk "srv1" "203.0.113.7" "admin" None None []).
Proof.
  split.
  - rewrite (proj1 (get_server_reply (list WyronClient.delivery) scripted
                      is_error_4xx_5xx "srv1"
                      (rest_state (Some "tok") empty_reply) _ _ eq_refl));
      reflexivity.
  - rewrite (proj2 (proj2
               (get_server_reply (list WyronClient.delivery) scripted
                  is_error_4xx_5xx "srv1"
                  (rest_state (Some "tok") server_reply) _ _ eq_refl))
               bare_json eq_refl).
    reflexivity.
Defined.

Lemma create_or_update_server_steps_witness :
  fst (WyronClient.create_or_update_server (list WyronClient.delivery)
         scripted is_error_4xx_5xx [("name", PStr "srv1")]
         (rest_state (Some "tok") update_session)) =
    Ok (Server.mk "srv1" "203.0.113.7" "admin" None None []) /\
  fst (WyronClient.create_or_update_server (list WyronClient.delivery)
         scripted is_error_4xx_5xx [("name", PStr "srv1")]
         (rest_state (Some "tok") empty_reply)) =
    Raise (Exception "server create/update succeeded but 'name' missing").
Proof.
  split.
  - rewrite (proj2 (proj2
               (create_or_update_server_steps (list WyronClient.delivery)
                  scripted is_error_4xx_5xx [("name", PStr "srv1")]
                  (rest_state (Some "tok") update_session) _ _ eq_refl))
               "srv1" eq_refl); [reflexivity | discriminate].
  - rewrite (proj1 (proj2
               (create_or_update_server_steps (list WyronClient.delivery)
                  scripted is_error_4xx_5xx [("name", PStr "srv1")]
                  (rest_state (Some "tok") empty_reply) _ _ eq_refl)));
      [reflexivity | now left].
Defined.

(** ** Users over REST *)

Lemma bind_peers_bound (me : ServerResolver) (user : User.t) :
  peers_bound me (bind_peers me user).
Proof.
  intros p Hp. unfold bind_peers in Hp. simpl in Hp.
  apply in_map_iff in Hp as (q & <- & _). reflexivity.
Qed.

Lemma parse_bound_user_bound (me : ServerResolver) (u : pyval)
  (user : User.t) :
  WyronClient.parse_bound_user me u = Ok user -> peers_bound me user.
Proof.
  unfold WyronClient.parse_bound_user.
  destruct (py_dict u) as [d| |]; simpl; try discriminate.
  destruct (WyronClient._parse_user d) as [user0| |]; simpl;
    try discriminate.
  intros [= <-]. apply bind_peers_bound.
Qed.

Section RestUsers.

Variable World : Type.
Variable send : WyronClient.http_request -> World -> WyronClient.delivery * World.
Variable is_error : Z -> bool.
Variable me : ServerResolver.

Lemma fetched_user_bound (m : WyronClient.M World pyval)
  (st st' : WyronClient.state World) (user : User.t) :
  bind m (fun data =>
    bind (lift (py_item data "result")) (fun found =>
      lift (WyronClient.parse_bound_user me found))) st = (Ok user, st') ->
  peers_bound me user.
Proof.
  unfold bind, lift.
  destruct (m st) as [[data|e|f] st1]; try discriminate.
  destruct (py_item data "result") as [found| |]; try discriminate.
  destruct (WyronClient.parse_bound_user me found) as [user0| |] eqn:E;
    try discriminate.
  intros [= <- _]. now apply parse_bound_user_bound in E.
Qed.

(** X11. Every user the REST client returns, from [list_users], [get_user],
    [create_user] or [edit_user], comes with each of its peers bound to the
    client, so that the peers can be rendered. *)
Theorem rest_users_bound :
  (forall social_id status search limit skip sort order st users st',
     WyronClient.list_users World send is_error me social_id status search
       limit skip sort order st = (Ok users, st') ->
     Forall (peers_bound me) users)
  /\
  (forall user_id st user st',
     WyronClient.get_user World send is_error me user_id st = (Ok user, st') ->
     peers_bound me user)
  /\
  (forall payload st user st',
     WyronClient.create_user World send is_error me payload st =
       (Ok user, st') ->
     peers_bound me user)
  /\
  (forall user_id payload st user st',
     WyronClient.edit_user World send is_error me user_id payload st =
       (Ok user, st') ->
     peers_bound me user).
Proof.
  split; [|split; [|split]].
  - intros social_id status search limit skip sort order st users st'.
    unfold WyronClient.list_users, bind, lift.
    destruct (WyronClient.list_users_data _ _ _ _ _ _ _ _ _ _ _)
      as [[data|e|f] st1]; try discriminate.
    destruct (py_get_default data "result" (PList [])) as [found| |];
      try discriminate.
    destruct (py_iter found) as [items| |]; try discriminate.
    destruct (rmap (WyronClient.parse_bound_user me) items)
      as [us| |] eqn:E; try discriminate.
    intros [= <- _]. apply rmap_Forall2 in E.
    induction E as [|x y l l' Hxy _ IH]; constructor; auto.
    now apply parse_bound_user_bound in Hxy.
  - intros user_id st user st'. apply fetched_user_bound.
  - intros payload st user st'. apply fetched_user_bound.
  - intros user_id payload st user st'. apply fetched_user_bound.
Qed.

End RestUsers.

Lemma rest_users_bound_witness :
  exists users,
    fst (WyronClient.list_users (list WyronClient.delivery) scripted
           is_error_4xx_5xx srv1_resolver None None None 50 0 "created_at"
           "desc" (rest_state (Some "tok") users_reply)) = Ok users /\
    length users = 1%nat /\
    Forall (peers_bound srv1_resolver) users.
Proof.
  eexists. split; [reflexivity|]. split; [reflexivity|].
  eapply (proj1 (rest_users_bound (list WyronClient.delivery) scripted
                   is_error_4xx_5xx srv1_resolver)
            None None None 50 0 "created_at" "desc"
            (rest_state (Some "tok") users_reply)).
  reflexivity.
Defined.

Lemma parse_user_reaches_init (u : dict) (peers : list PeerState.t) :
  peers_readable u peers ->
  WyronClient._parse_user u = User_init u peers.
Proof.
  unfold WyronClient._parse_user.
  intros [[-> ->] | (entries & -> & Hf)]; simpl.
  - reflexivity.
  - apply rmap_Forall2 in Hf. now rewrite Hf.
Qed.

(** X12. [WyronClient._parse_user] wants every one of the eleven fields of
    [User]: a JSON user that lacks one of them is a [TypeError], and so is
    one with ["peers": null]; a user that has them all parses, with the
    peers of its list in order and with no peers when the list is left
    out. *)
Theorem parse_user_fields (u : dict) :
  (forall user peers,
     user_header u user -> peers_readable u peers ->
     WyronClient._parse_user u = Ok (with_peers user peers))
  /\
  (forall k peers,
     peers_readable u peers ->
     In k user_required -> ~ In k (dict_keys u) ->
     WyronClient._parse_user u = Raise TypeError)
  /\
  (dict_get u "peers" = Some PNone ->
   WyronClient._parse_user u = Raise TypeError).
Proof.
  split; [|split].
  - intros user peers
      (Hk & H1 & H2 & H3 & H4 & H5 & H6 & H7 & H8 & H9 & H10 & H11) Hp.
    rewrite (parse_user_reaches_init u peers Hp). unfold User_init.
    rewrite bind_kwargs_ok.
    + simpl. rewrite H1, H2, H3, H4, H5, H6, H7, H8, H9, H10, H11.
      reflexivity.
    + intros k Hin. apply keys_set_In in Hin as [Hin | ->]; auto.
      unfold user_fields. apply in_or_app. right. now left.
    + intros f Hf. apply keys_set_In. left. simpl in Hf.
      repeat (destruct Hf as [<- | Hf];
              [eapply dict_get_In; eassumption|]).
      contradiction.
  - intros k peers Hp Hin Hk.
    rewrite (parse_user_reaches_init u peers Hp). unfold User_init.
    rewrite (bind_kwargs_missing _ _ _ k); [reflexivity | exact Hin |].
    intros H. apply keys_set_In in H as [H | ->]; [contradiction|].
    simpl in Hin. intuition discriminate.
  - intros H. unfold WyronClient._parse_user. now rewrite H.
Qed.

Lemma alice_json_header : user_header alice_json alice.
Proof.
  repeat split.
  intros k Hin. simpl in Hin. unfold user_fields, user_required. simpl.
  intuition.
Qed.

Lemma parse_user_fields_witness :
  WyronClient._parse_user alice_json = Ok alice /\
  WyronClient._parse_user (tl alice_json) = Raise TypeError.
Proof.
  split.
  - apply (proj1 (parse_user_fields alice_json) alice []).
    + exact alice_json_header.
    + left. split; reflexivity.
  - apply (proj1 (proj2 (parse_user_fields (tl alice_json))) "user_key" []).
    + left. split; reflexivity.
    + now left.
    + simpl. intuition discriminate.
Defined.

(** ** Users over gRPC *)

Section GrpcUsers.

Variable World : Type.
Variable auth_Login :
  WyronGrpcClient.stub World auth_pb2.LoginRequest auth_pb2.LoginResponse.
Variable ListUsersResponse : Type.
Variable user_List :
  WyronGrpcClient.stub World user_pb2.ListUsersRequest ListUsersResponse.
Variable user_Get :
  WyronGrpcClient.stub World user_pb2.UserKeyRequest user_pb2.User.t.
Variable response_users : ListUsersResponse -> list user_pb2.User.t.
Variable me : ServerResolver.



End GrpcUsers.


(** ** Rendering from what the clients resolve *)

Lemma parse_interface_name (i : server_pb2.Interface.t) :
  WireGuardInterface.name (WyronGrpcClient._parse_interface i) =
  server_pb2.Interface.name i.
Proof. reflexivity. Qed.

Lemma matched_message_parsed (n : string) (m : server_pb2.Server.t)
  (i : server_pb2.Interface.t) :
  matched_message_interface n m i ->
  matched_interface n (WyronGrpcClient._parse_server m)
    (WyronGrpcClient._parse_interface i).
Proof.
  intros (before & after & E & Hn & Hb).
  exists (map WyronGrpcClient._parse_interface before),
         (map WyronGrpcClient._parse_interface after).
  split; [|split].
  - simpl. rewrite E, map_app. reflexivity.
  - exact Hn.
  - intros j Hj. apply in_map_iff in Hj as (q & <- & Hq).
    rewrite parse_interface_name. now apply Hb.
Qed.

(** X14. A profile rendered from a server that came over gRPC never shows
    [None]: dns and port are those of the message, an unset port as [0] and
    an unset dns as the empty string; an interface with an unset endpoint or
    public key is refused as a missing key. *)
Theorem grpc_profile_rendered (p : PeerState.t) (m : server_pb2.Server.t)
  (i : server_pb2.Interface.t) :
  present (PeerState.private_key p) ->
  resolves_to p (WyronGrpcClient._parse_server m) ->
  matched_message_interface (PeerState.interface p) m i ->
  PeerState.generate_config p =
  if String.eqb (server_pb2.Interface.endpoint i) "" then
    Raise (InterfaceMissingKey "Interface endpoint missing")
  else if String.eqb (server_pb2.Interface.public_key i) "" then
    Raise (InterfaceMissingKey "Interface public_key missing")
  else Ok (grpc_profile p i).
Proof.
  intros Hk Hs Hm. apply matched_message_parsed in Hm.
  rewrite (generate_config_matched p _ _ Hk Hs Hm). simpl.
  destruct (String.eqb (server_pb2.Interface.endpoint i) ""); simpl;
    [reflexivity|].
  destruct (String.eqb (server_pb2.Interface.public_key i) ""); simpl;
    reflexivity.
Qed.

Lemma grpc_profile_rendered_witness :
  exists before after,
    PeerState.generate_config (grpc_peer portless_message) =
    Ok (before ++ LF ++ "    Endpoint = vpn.example.com:0" ++ LF ++ after).
Proof.
  rewrite (grpc_profile_rendered (grpc_peer portless_message)
             portless_message
             (server_pb2.Interface.mk "wg0" "" "" "vpn.example.com" "" 0 0
                "PUB")).
  - simpl.
    exists ("[Interface]" ++ LF ++ "    Address = 10.0.0.2/32" ++ LF ++
            "    DNS = " ++ LF ++ "    PrivateKey = PK" ++ LF ++ LF ++
            "[Peer]" ++ LF ++ "    AllowedIPs = 0.0.0.0/0"),
           ("    PublicKey = PUB" ++ LF ++ "    ").
    reflexivity.
  - present_by_computation.
  - eexists. split; reflexivity.
  - exists [], []. repeat split; auto; now intros ? [].
Defined.

(** The resolver fails: the failure is the outcome of rendering. *)
Lemma generate_config_resolver_error (p : PeerState.t) (c : ServerResolver)
  (e : exn) :
  present (PeerState.private_key p) ->
  PeerState._client p = Some c ->
  get_server c (PeerState.server_id p) = Raise e ->
  PeerState.generate_config p = Raise e.
Proof.
  intros Hk Hc He. apply truthy_str_true in Hk.
  unfold PeerState.generate_config, PeerState._resolve_iface,
    PeerState._resolve_server.
  now rewrite Hk, Hc, He.
Qed.

(** X15. A peer bound to the REST client resolves its server with
    [GET /servers/<server_id>]: an error of that request (an HTTP error
    status, a transport failure) is what rendering raises, as it is and not
    as an [InterfaceNotFound]; and when the reply carries the server under
    [data], rendering goes on with the parsed server. *)
Theorem rest_peer_resolution (World : Type)
  (send : WyronClient.http_request -> World -> WyronClient.delivery * World)
  (is_error : Z -> bool) (st : WyronClient.state World) (p : PeerState.t) :
  PeerState._client p = Some (rest_resolver send is_error st) ->
  let reply :=
    fst (WyronClient._request World send is_error "GET"
           ("/servers/" ++ PeerState.server_id p) WyronClient.no_kwargs st) in
  (forall e,
     reply = Raise e ->
     present (PeerState.private_key p) ->
     PeerState.generate_config p = Raise e)
  /\
  (forall d s srv,
     reply = Ok (PDict d) ->
     dict_get d "data" = Some (PDict s) ->
     WyronClient._parse_server s = Ok srv ->
     resolves_to p srv).
Proof.
  intros Hc reply. unfold reply. split.
  - intros e He Hk.
    apply (generate_config_resolver_error p _ e Hk Hc). simpl.
    unfold WyronClient.get_server, bind.
    destruct (WyronClient._request _ _ _ _ _ _ _) as [r st1].
    simpl in He. now rewrite He.
  - intros d s srv Hd Hs Hp. eexists. split; [exact Hc|]. simpl.
    unfold WyronClient.get_server, bind.
    destruct (WyronClient._request _ _ _ _ _ _ _) as [r st1].
    simpl in Hd. rewrite Hd. unfold lift. simpl. rewrite Hs. simpl.
    now rewrite Hp.
Qed.

Lemma rest_peer_resolution_witness :
  PeerState.generate_config (rest_peer not_found_reply) =
    Raise (HTTPStatusError 404) /\
  resolves_to (rest_peer server_reply)
    (Server.mk "srv1" "203.0.113.7" "admin" None None []).
Proof.
  split.
  - apply (proj1 (rest_peer_resolution (list WyronClient.delivery) scripted
                    is_error_4xx_5xx (rest_state (Some "tok") not_found_reply)
                    (rest_peer not_found_reply) eq_refl)).
    + reflexivity.
    + present_by_computation.
  - apply (proj2 (rest_peer_resolution (list WyronClient.delivery) scripted
                    is_error_4xx_5xx (rest_state (Some "tok") server_reply)
                    (rest_peer server_reply) eq_refl)
             [("data", PDict bare_json)] bare_json); reflexivity.
Defined.

(** X16. The dns of the resolved interface is never checked: a peer that
    passes the four checks and whose interface has [dns = None] is rendered,
    and the profile has the line "    DNS = None". *)
Theorem generate_config_dns_none (p : PeerState.t) (s : Server.t)
  (i : WireGuardInterface.t) :
  present (PeerState.private_key p) ->
  resolves_to p s ->
  matched_interface (PeerState.interface p) s i ->
  present (WireGuardInterface.endpoint i) ->
  present (WireGuardInterface.public_key i) ->
  WireGuardInterface.dns i = None ->
  exists after,
    PeerState.generate_config p =
    Ok ("[Interface]" ++ LF ++
        "    Address = " ++ PeerState.allowed_address p ++ LF ++
        "    DNS = None" ++ LF ++ after).
Proof.
  intros Hk Hs Hm He Hpk Hdns.
  rewrite (generate_config_matched p s i Hk Hs Hm).
  apply truthy_str_true in He, Hpk. rewrite He, Hpk. simpl.
  unfold PeerState.render. rewrite Hdns. simpl.
  eexists. reflexivity.
Qed.

Lemma generate_config_dns_none_witness :
  exists after,
    PeerState.generate_config (peer_on wg0_no_dns) =
    Ok ("[Interface]" ++ LF ++ "    Address = 10.0.0.2/32" ++ LF ++
        "    DNS = None" ++ LF ++ after).
Proof.
  apply (generate_config_dns_none (peer_on wg0_no_dns) (server_of wg0_no_dns)
           wg0_no_dns).
  - present_by_computation.
  - apply sample_resolves.
  - now apply sample_matched.
  - present_by_computation.
  - present_by_computation.
  - reflexivity.
Defined.

(** X17. A peer bound to the gRPC client resolves its server with the Get
    method for its [server_id]: a failure of that call (NOT_FOUND, a passed
    deadline) is what rendering raises, as it is; a reply is parsed, which
    cannot fail, and rendering goes on with the parsed server. *)
Theorem grpc_peer_resolution (World : Type)
  (auth_Login :
     WyronGrpcClient.stub World auth_pb2.LoginRequest auth_pb2.LoginResponse)
  (server_Get :
     WyronGrpcClient.stub World server_pb2.ServerIDRequest server_pb2.Server.t)
  (st : WyronGrpcClient.state World) (p : PeerState.t) :
  PeerState._client p = Some (grpc_resolver auth_Login server_Get st) ->
  let reply :=
    fst (WyronGrpcClient._call World auth_Login server_Get
           {| server_pb2.id := PeerState.server_id p |} st) in
  (forall e,
     reply = Raise e ->
     present (PeerState.private_key p) ->
     PeerState.generate_config p = Raise e)
  /\
  (forall m,
     reply = Ok m ->
     resolves_to p (WyronGrpcClient._parse_server m)).
Proof.
  intros Hc reply. unfold reply. split.
  - intros e He Hk.
    apply (generate_config_resolver_error p _ e Hk Hc). simpl.
    unfold WyronGrpcClient.get_server, bind.
    destruct (WyronGrpcClient._call _ _ _ _ _) as [r st1].
    simpl in He. now rewrite He.
  - intros m Hm. eexists. split; [exact Hc|]. simpl.
    unfold WyronGrpcClient.get_server, bind, ret.
    destruct (WyronGrpcClient._call _ _ _ _ _) as [r st1].
    simpl in Hm. now rewrite Hm.
Qed.

Lemma grpc_peer_resolution_witness :
  PeerState.generate_config (grpc_bound_peer [Raise (RpcError NOT_FOUND)]) =
    Raise (RpcError NOT_FOUND) /\
  resolves_to (grpc_bound_peer [Ok PNone])
    (WyronGrpcClient._parse_server portless_message).
Proof.
  split.
  - apply (proj1 (grpc_peer_resolution (list (result pyval)) scripted_Login
                    scripted_Get
                    (grpc_state (Some "tok") [Raise (RpcError NOT_FOUND)])
                    (grpc_bound_peer [Raise (RpcError NOT_FOUND)]) eq_refl)).
    + reflexivity.
    + present_by_computation.
  - apply (proj2 (grpc_peer_resolution (list (result pyval)) scripted_Login
                    scripted_Get (grpc_state (Some "tok") [Ok PNone])
                    (grpc_bound_peer [Ok PNone]) eq_refl)).
    reflexivity.
Defined.
